(** * Pomodoro timer: the engine of [src/app.js] and its specification

    A shallow embedding of class [PomodoroTimer] of [src/app.js].

    - The fields of the timer object are a record; the numbers they hold are
      integers, modelled by [Z].  JavaScript numbers are doubles, on which
      integer arithmetic is exact below [2^53]; the model is meant for that
      range.
    - The page around the object (the timers registered with [setInterval]
      and [setTimeout], [localStorage], the calendar date and what has been
      shown to the user) is a second record; the browser's event loop is a
      list of events, each handled to completion before the next.
    - Methods are state transformers written statement by statement in the
      order of the source. *)

From Stdlib Require Import ZArith List String Ascii Bool Lia.
From Stdlib Require Import DecimalString.
Import ListNotations.
Local Open Scope string_scope.
Local Open Scope Z_scope.

(** ** What is stored under the key ['pomodoroData'] *)

(** A JSON primitive.  Numbers are integers; nested arrays and objects as
    values of a field are not modelled. *)
Inductive jprim : Type :=
| JNull
| JBool (b : bool)
| JNum (n : Z)
| JStr (s : string).

(** The value [JSON.parse] returns: a primitive, an array (whose content is of
    no interest: the code reads named fields only) or an object, given by its
    own properties. *)
Inductive json : Type :=
| JPrim (p : jprim)
| JArray
| JObject (fields : list (string * jprim)).

(** A stored text, classified by what [if (saved)] and [JSON.parse(saved)] do
    with it. *)
Inductive StoredItem : Type :=
| NoItem                (* getItem returns null *)
| EmptyText             (* the empty string, which is falsy *)
| Unparsable            (* a non-empty text on which JSON.parse throws *)
| Json (j : json).      (* a non-empty text that JSON.parse turns into j *)

(** ** What the user is shown *)

Inductive Status : Type :=
| FocusTime | TakeABreak | Paused | ReadyToFocus | TimeForABreak.

Inductive Toast : Type :=
| GreatWork | BreakOver | SettingsApplied (work : bool).

Inductive Effect : Type :=
| RunningClass (on : bool)
| UpdateButtonState (running : bool)
| UpdateStatusText (s : Status)
| UpdateBadge (running work : bool) (sessions goal : Z)
| UpdateDisplay (remaining : Z) (work : bool)
| UpdateProgressRing (remaining total : Z)
| UpdateStats (sessions minutes streak : Z)
| ModeShown (work : bool)
| InputsShown (workMin breakMin : Z)
| SoundIcon (on : bool)
| PlaySound
| ShowToast (t : Toast).

(** ** The timer object *)

Record PomodoroTimer : Type := mkTimer {
  workDuration : Z;
  breakDuration : Z;
  timeRemaining : Z;
  totalTime : Z;
  isRunning : bool;
  isWorkMode : bool;
  timerInterval : option nat;       (* null, or the id setInterval returned *)
  sessionCount : Z;
  todayFocusMinutes : Z;
  currentStreak : Z;
  dailyGoal : Z;
  soundEnabled : bool;
  backgroundTime : option Z         (* undefined/null, or a Date.now() value *)
}.

(** ** The page *)

Record Host : Type := mkHost {
  intervals : list nat;     (* ids of the live setInterval subscriptions; all
                               of them run the callback of start() *)
  timeouts : nat;           (* outstanding callbacks of the setTimeout of
                               complete(); all of them run
                               this.switchMode(!this.isWorkMode).  The
                               timeouts of playSound and showToast touch no
                               field of the object and are left out *)
  nextId : nat;             (* the id the next setInterval returns *)
  pomodoroData : StoredItem;
  pomodoroSound : option string;
  dateString : string;      (* new Date().toDateString() *)
  presented : list Effect   (* newest first *)
}.

Record World : Type := mkWorld { this : PomodoroTimer; host : Host }.

Definition Cmd : Type := World -> World.

(** *** Field updates *)

Definition set_workDuration (v : Z) (t : PomodoroTimer) : PomodoroTimer :=
  mkTimer v (breakDuration t) (timeRemaining t) (totalTime t) (isRunning t)
    (isWorkMode t) (timerInterval t) (sessionCount t) (todayFocusMinutes t)
    (currentStreak t) (dailyGoal t) (soundEnabled t) (backgroundTime t).

Definition set_breakDuration (v : Z) (t : PomodoroTimer) : PomodoroTimer :=
  mkTimer (workDuration t) v (timeRemaining t) (totalTime t) (isRunning t)
    (isWorkMode t) (timerInterval t) (sessionCount t) (todayFocusMinutes t)
    (currentStreak t) (dailyGoal t) (soundEnabled t) (backgroundTime t).

Definition set_timeRemaining (v : Z) (t : PomodoroTimer) : PomodoroTimer :=
  mkTimer (workDuration t) (breakDuration t) v (totalTime t) (isRunning t)
    (isWorkMode t) (timerInterval t) (sessionCount t) (todayFocusMinutes t)
    (currentStreak t) (dailyGoal t) (soundEnabled t) (backgroundTime t).

Definition set_totalTime (v : Z) (t : PomodoroTimer) : PomodoroTimer :=
  mkTimer (workDuration t) (breakDuration t) (timeRemaining t) v (isRunning t)
    (isWorkMode t) (timerInterval t) (sessionCount t) (todayFocusMinutes t)
    (currentStreak t) (dailyGoal t) (soundEnabled t) (backgroundTime t).

Definition set_isRunning (v : bool) (t : PomodoroTimer) : PomodoroTimer :=
  mkTimer (workDuration t) (breakDuration t) (timeRemaining t) (totalTime t) v
    (isWorkMode t) (timerInterval t) (sessionCount t) (todayFocusMinutes t)
    (currentStreak t) (dailyGoal t) (soundEnabled t) (backgroundTime t).

Definition set_isWorkMode (v : bool) (t : PomodoroTimer) : PomodoroTimer :=
  mkTimer (workDuration t) (breakDuration t) (timeRemaining t) (totalTime t)
    (isRunning t) v (timerInterval t) (sessionCount t) (todayFocusMinutes t)
    (currentStreak t) (dailyGoal t) (soundEnabled t) (backgroundTime t).

Definition set_timerInterval (v : option nat) (t : PomodoroTimer) : PomodoroTimer :=
  mkTimer (workDuration t) (breakDuration t) (timeRemaining t) (totalTime t)
    (isRunning t) (isWorkMode t) v (sessionCount t) (todayFocusMinutes t)
    (currentStreak t) (dailyGoal t) (soundEnabled t) (backgroundTime t).

Definition set_sessionCount (v : Z) (t : PomodoroTimer) : PomodoroTimer :=
  mkTimer (workDuration t) (breakDuration t) (timeRemaining t) (totalTime t)
    (isRunning t) (isWorkMode t) (timerInterval t) v (todayFocusMinutes t)
    (currentStreak t) (dailyGoal t) (soundEnabled t) (backgroundTime t).

Definition set_todayFocusMinutes (v : Z) (t : PomodoroTimer) : PomodoroTimer :=
  mkTimer (workDuration t) (breakDuration t) (timeRemaining t) (totalTime t)
    (isRunning t) (isWorkMode t) (timerInterval t) (sessionCount t) v
    (currentStreak t) (dailyGoal t) (soundEnabled t) (backgroundTime t).

Definition set_currentStreak (v : Z) (t : PomodoroTimer) : PomodoroTimer :=
  mkTimer (workDuration t) (breakDuration t) (timeRemaining t) (totalTime t)
    (isRunning t) (isWorkMode t) (timerInterval t) (sessionCount t)
    (todayFocusMinutes t) v (dailyGoal t) (soundEnabled t) (backgroundTime t).

Definition set_soundEnabled (v : bool) (t : PomodoroTimer) : PomodoroTimer :=
  mkTimer (workDuration t) (breakDuration t) (timeRemaining t) (totalTime t)
    (isRunning t) (isWorkMode t) (timerInterval t) (sessionCount t)
    (todayFocusMinutes t) (currentStreak t) (dailyGoal t) v (backgroundTime t).

Definition set_backgroundTime (v : option Z) (t : PomodoroTimer) : PomodoroTimer :=
  mkTimer (workDuration t) (breakDuration t) (timeRemaining t) (totalTime t)
    (isRunning t) (isWorkMode t) (timerInterval t) (sessionCount t)
    (todayFocusMinutes t) (currentStreak t) (dailyGoal t) (soundEnabled t) v.

Definition set_intervals (v : list nat) (h : Host) : Host :=
  mkHost v (timeouts h) (nextId h) (pomodoroData h) (pomodoroSound h)
    (dateString h) (presented h).

Definition set_timeouts (v : nat) (h : Host) : Host :=
  mkHost (intervals h) v (nextId h) (pomodoroData h) (pomodoroSound h)
    (dateString h) (presented h).

Definition set_nextId (v : nat) (h : Host) : Host :=
  mkHost (intervals h) (timeouts h) v (pomodoroData h) (pomodoroSound h)
    (dateString h) (presented h).

Definition set_pomodoroData (v : StoredItem) (h : Host) : Host :=
  mkHost (intervals h) (timeouts h) (nextId h) v (pomodoroSound h)
    (dateString h) (presented h).

Definition set_pomodoroSound (v : option string) (h : Host) : Host :=
  mkHost (intervals h) (timeouts h) (nextId h) (pomodoroData h) v
    (dateString h) (presented h).

Definition set_dateString (v : string) (h : Host) : Host :=
  mkHost (intervals h) (timeouts h) (nextId h) (pomodoroData h)
    (pomodoroSound h) v (presented h).

Definition set_presented (v : list Effect) (h : Host) : Host :=
  mkHost (intervals h) (timeouts h) (nextId h) (pomodoroData h)
    (pomodoroSound h) (dateString h) v.

(** A statement on the object, a statement on the page, and sequencing. *)
Definition on_this (f : PomodoroTimer -> PomodoroTimer) : Cmd :=
  fun w => mkWorld (f (this w)) (host w).

Definition on_host (f : Host -> Host) : Cmd :=
  fun w => mkWorld (this w) (f (host w)).

Definition seq (c1 c2 : Cmd) : Cmd := fun w => c2 (c1 w).

Declare Scope cmd_scope.
Delimit Scope cmd_scope with cmd.
Bind Scope cmd_scope with Cmd.
Notation "c1 ;; c2" := (seq c1 c2)
  (at level 61, right associativity) : cmd_scope.

Definition emit (e : Effect) : Cmd :=
  on_host (fun h => set_presented (e :: presented h) h).

(** ** Host functions *)

(** [setInterval(callback, 1000)] as called by [start]: a fresh id, live from
    now on.  Ids start at 1, so an id is truthy. *)
Definition setInterval (w : World) : nat * World :=
  let id := nextId (host w) in
  (id, on_host (fun h => set_nextId (S id) (set_intervals (id :: intervals h) h)) w).

Fixpoint remove_id (id : nat) (l : list nat) : list nat :=
  match l with
  | [] => []
  | x :: r => if Nat.eqb x id then remove_id id r else x :: remove_id id r
  end.

Definition clearInterval (id : nat) : Cmd :=
  on_host (fun h => set_intervals (remove_id id (intervals h)) h).

(** [setTimeout(() => this.switchMode(!this.isWorkMode), 1500)]: the returned
    handle is dropped by the caller. *)
Definition setTimeout_switch : Cmd :=
  on_host (fun h => set_timeouts (S (timeouts h)) h).

(** [Math.round(x / 60)] for an integer [x]: the nearest integer, a half going
    up. *)
Definition round_div60 (x : Z) : Z := (x + 30) / 60.

(** ** UI updates *)

Definition updateDisplay : Cmd :=
  fun w => emit (UpdateDisplay (timeRemaining (this w)) (isWorkMode (this w))) w.

Definition updateProgressRing : Cmd :=
  fun w => emit (UpdateProgressRing (timeRemaining (this w)) (totalTime (this w))) w.

Definition updateButtonState : Cmd :=
  fun w => emit (UpdateButtonState (isRunning (this w))) w.

Definition updateStatusText (s : Status) : Cmd := emit (UpdateStatusText s).

Definition updateStats : Cmd :=
  fun w => emit (UpdateStats (sessionCount (this w)) (todayFocusMinutes (this w))
                   (currentStreak (this w))) w.

Definition updateBadge : Cmd :=
  fun w => emit (UpdateBadge (isRunning (this w)) (isWorkMode (this w))
                   (sessionCount (this w)) (dailyGoal (this w))) w.

Definition updateUI : Cmd :=
  (updateDisplay ;; updateProgressRing ;; updateStats ;; updateBadge)%cmd.

(** The page is taken to provide [AudioContext]: the tones are played and
    nothing is thrown. *)
Definition playSound : Cmd := emit PlaySound.

Definition showToast (t : Toast) : Cmd := emit (ShowToast t).

(** ** Data persistence *)

(** The object literal of [saveData]. *)
Definition saved_object (wd bd sc tfm cs : Z) (lastDate : string) : json :=
  JObject [ ("workDuration", JNum wd); ("breakDuration", JNum bd);
            ("sessionCount", JNum sc); ("todayFocusMinutes", JNum tfm);
            ("currentStreak", JNum cs); ("lastDate", JStr lastDate) ].

(** [localStorage.setItem('pomodoroData', JSON.stringify(data))]: what is
    stored is the text that parses back to [data]. *)
Definition saveData : Cmd :=
  fun w =>
    let t := this w in
    let data := saved_object (workDuration t) (breakDuration t) (sessionCount t)
                  (todayFocusMinutes t) (currentStreak t) (dateString (host w)) in
    on_host (set_pomodoroData (Json data)) w.

(** ** Timer controls *)

Definition pause : Cmd :=
  (on_this (set_isRunning false) ;;
   emit (RunningClass false) ;;
   updateButtonState ;;
   updateStatusText Paused ;;
   updateBadge ;;
   fun w =>
     match timerInterval (this w) with
     | Some id => (clearInterval id ;; on_this (set_timerInterval None))%cmd w
     | None => w
     end)%cmd.

Definition switchMode (toWorkMode : bool) : Cmd :=
  (on_this (set_isWorkMode toWorkMode) ;;
   (fun w => on_this (set_timeRemaining
                        (if toWorkMode then workDuration (this w)
                         else breakDuration (this w))) w) ;;
   (fun w => on_this (set_totalTime (timeRemaining (this w))) w) ;;
   emit (ModeShown toWorkMode) ;;
   updateDisplay ;;
   updateProgressRing ;;
   updateStatusText (if toWorkMode then ReadyToFocus else TimeForABreak) ;;
   updateBadge)%cmd.

Definition complete : Cmd :=
  (pause ;;
   (fun w => if soundEnabled (this w) then playSound w else w) ;;
   (fun w =>
      if isWorkMode (this w) then
        ((fun w => on_this (set_sessionCount (sessionCount (this w) + 1)) w) ;;
         (fun w => on_this (set_todayFocusMinutes
                              (todayFocusMinutes (this w)
                               + round_div60 (workDuration (this w)))) w) ;;
         (fun w => on_this (set_currentStreak (currentStreak (this w) + 1)) w) ;;
         updateStats ;;
         saveData ;;
         showToast GreatWork)%cmd w
      else showToast BreakOver w) ;;
   setTimeout_switch)%cmd.

(** The callback [start] hands to [setInterval]. *)
Definition tick : Cmd :=
  ((fun w => on_this (set_timeRemaining (timeRemaining (this w) - 1)) w) ;;
   (fun w =>
      if timeRemaining (this w) <=? 0 then complete w
      else (updateDisplay ;; updateProgressRing)%cmd w))%cmd.

Definition start : Cmd :=
  (on_this (set_isRunning true) ;;
   emit (RunningClass true) ;;
   updateButtonState ;;
   (fun w => updateStatusText
               (if isWorkMode (this w) then FocusTime else TakeABreak) w) ;;
   updateBadge ;;
   (fun w => let (id, w') := setInterval w in
             on_this (set_timerInterval (Some id)) w'))%cmd.

Definition toggle : Cmd :=
  fun w => if isRunning (this w) then pause w else start w.

Definition reset : Cmd :=
  (pause ;;
   (fun w => on_this (set_timeRemaining
                        (if isWorkMode (this w) then workDuration (this w)
                         else breakDuration (this w))) w) ;;
   (fun w => on_this (set_totalTime (timeRemaining (this w))) w) ;;
   updateDisplay ;;
   updateProgressRing ;;
   updateStatusText ReadyToFocus)%cmd.

Definition skip : Cmd :=
  (pause ;;
   (fun w => switchMode (negb (isWorkMode (this w))) w))%cmd.

(** The callback [complete] hands to [setTimeout]. *)
Definition deferred_switch : Cmd :=
  fun w => switchMode (negb (isWorkMode (this w))) w.

(** ** Settings *)

(** [parseInt(text)] without a radix: [None] stands for NaN.  A character of a
    text is a code unit below 256. *)
Definition is_white (c : ascii) : bool :=
  let n := nat_of_ascii c in
  existsb (Nat.eqb n) [9; 10; 11; 12; 13; 32; 160]%nat.

Fixpoint trim_start (s : string) : string :=
  match s with
  | String c r => if is_white c then trim_start r else s
  | EmptyString => s
  end.

Definition digit_of (radix : Z) (c : ascii) : option Z :=
  let n := Z.of_nat (nat_of_ascii c) in
  let v := if (48 <=? n) && (n <=? 57) then n - 48
           else if (97 <=? n) && (n <=? 122) then n - 87
           else if (65 <=? n) && (n <=? 90) then n - 55
           else radix in
  if v <? radix then Some v else None.

(** The value of the longest prefix of digits, [acc] being the value read so
    far ([None]: no digit yet). *)
Fixpoint digits (radix : Z) (s : string) (acc : option Z) : option Z :=
  match s with
  | String c r =>
      match digit_of radix c with
      | Some d =>
          digits radix r
            (Some (radix * match acc with Some a => a | None => 0 end + d))
      | None => acc
      end
  | EmptyString => acc
  end.

Definition parseInt (text : string) : option Z :=
  let s := trim_start text in
  let (negative, s) :=
    match s with
    | String "-" r => (true, r)
    | String "+" r => (false, r)
    | _ => (false, s)
    end in
  let (radix, s) :=
    match s with
    | String "0" (String "x" r) => (16, r)
    | String "0" (String "X" r) => (16, r)
    | _ => (10, s)
    end in
  match digits radix s None with
  | Some n => Some (if negative then - n else n)
  | None => None
  end.

(** [parseInt(text) || fallback]: NaN and 0 are falsy. *)
Definition parseInt_or (text : string) (fallback : Z) : Z :=
  match parseInt text with
  | Some n => if n =? 0 then fallback else n
  | None => fallback
  end.

(** [work] and [brk] are the values of the two input elements at the time of
    the call. *)
Definition applySettings (work brk : string) : Cmd :=
  let workMin := parseInt_or work 25 in
  let breakMin := parseInt_or brk 5 in
  (on_this (set_workDuration (Z.max 1 (Z.min 120 workMin) * 60)) ;;
   on_this (set_breakDuration (Z.max 1 (Z.min 60 breakMin) * 60)) ;;
   (fun w => emit (InputsShown (round_div60 (workDuration (this w)))
                     (round_div60 (breakDuration (this w)))) w) ;;
   reset ;;
   saveData ;;
   (fun w => showToast (SettingsApplied (isWorkMode (this w))) w))%cmd.

Definition toggleSound : Cmd :=
  ((fun w => on_this (set_soundEnabled (negb (soundEnabled (this w)))) w) ;;
   (fun w => emit (SoundIcon (soundEnabled (this w))) w) ;;
   (fun w => on_host (set_pomodoroSound
                        (Some (if soundEnabled (this w) then "true" else "false"))) w))%cmd.

(** ** Loading *)

Inductive js_error : Type := SyntaxError | TypeError.

(** [data.name]: reading a property of [null] throws; a primitive and an array
    have none of the names the code reads. *)
Fixpoint own_property (name : string) (fields : list (string * jprim)) : option jprim :=
  match fields with
  | [] => None
  | (k, v) :: r => if String.eqb k name then Some v else own_property name r
  end.

Definition properties (data : json) : js_error + list (string * jprim) :=
  match data with
  | JPrim JNull => inl TypeError
  | JPrim _ => inr []
  | JArray => inr []
  | JObject fields => inr fields
  end.

Definition truthy (v : jprim) : bool :=
  match v with
  | JNull => false
  | JBool b => b
  | JNum n => negb (n =? 0)
  | JStr s => negb (String.eqb s "")
  end.

(** [value || fallback], [None] being [undefined]. *)
Definition js_or (value : option jprim) (fallback : jprim) : jprim :=
  match value with
  | Some v => if truthy v then v else fallback
  | None => fallback
  end.

(** [value === today], [today] being a string. *)
Definition is_date (value : option jprim) (today : string) : bool :=
  match value with
  | Some (JStr s) => String.eqb s today
  | _ => false
  end.

(** The five values [loadData] assigns to the object. *)
Record Loaded : Type := mkLoaded {
  ld_workDuration : jprim;
  ld_breakDuration : jprim;
  ld_sessionCount : jprim;
  ld_todayFocusMinutes : jprim;
  ld_currentStreak : jprim
}.

Definition assigned (today : string) (fields : list (string * jprim)) : Loaded :=
  let isToday := is_date (own_property "lastDate" fields) today in
  mkLoaded
    (js_or (own_property "workDuration" fields) (JNum (25 * 60)))
    (js_or (own_property "breakDuration" fields) (JNum (5 * 60)))
    (if isToday then js_or (own_property "sessionCount" fields) (JNum 0) else JNum 0)
    (if isToday then js_or (own_property "todayFocusMinutes" fields) (JNum 0) else JNum 0)
    (if isToday then js_or (own_property "currentStreak" fields) (JNum 0) else JNum 0).

(** The first block of [loadData]: [inr None] when the block is not entered. *)
Definition loadData_values (today : string) (saved : StoredItem)
  : js_error + option Loaded :=
  match saved with
  | NoItem => inr None
  | EmptyText => inr None
  | Unparsable => inl SyntaxError
  | Json data =>
      match properties data with
      | inl e => inl e
      | inr fields => inr (Some (assigned today fields))
      end
  end.

(** How a call ends: it throws, it leaves a field holding something that is not
    a number (such an object is outside this model of the engine), or it
    returns with all fields numbers. *)
Inductive Outcome : Type :=
| Threw (e : js_error)
| NotNumbers (values : Loaded)
| Done (w : World).

Definition numbers (l : Loaded) : option (Z * Z * Z * Z * Z) :=
  match l with
  | mkLoaded (JNum wd) (JNum bd) (JNum sc) (JNum tfm) (JNum cs) =>
      Some (wd, bd, sc, tfm, cs)
  | _ => None
  end.

(** The second block of [loadData]. *)
Definition load_sound : Cmd :=
  fun w =>
    match pomodoroSound (host w) with
    | Some pref =>
        if String.eqb pref "false"
        then (on_this (set_soundEnabled false) ;; emit (SoundIcon false))%cmd w
        else w
    | None => w
    end.

Definition loadData (w : World) : Outcome :=
  match loadData_values (dateString (host w)) (pomodoroData (host w)) with
  | inl e => Threw e
  | inr None => Done (load_sound w)
  | inr (Some l) =>
      match numbers l with
      | None => NotNumbers l
      | Some (wd, bd, sc, tfm, cs) =>
          Done ((on_this (set_workDuration wd) ;;
                 on_this (set_breakDuration bd) ;;
                 on_this (set_sessionCount sc) ;;
                 on_this (set_todayFocusMinutes tfm) ;;
                 on_this (set_currentStreak cs) ;;
                 (fun w => emit (InputsShown (round_div60 (workDuration (this w)))
                                   (round_div60 (breakDuration (this w)))) w) ;;
                 (fun w => on_this (set_timeRemaining (workDuration (this w))) w) ;;
                 (fun w => on_this (set_totalTime (workDuration (this w))) w) ;;
                 load_sound)%cmd w)
      end
  end.

(** The field initialisers of the constructor, on a page with the given
    storage and date. *)
Definition fresh (data : StoredItem) (sound : option string) (date : string) : World :=
  mkWorld
    (mkTimer (25 * 60) (5 * 60) (25 * 60) (25 * 60) false true None 0 0 0 8 true None)
    (mkHost [] 0 1 data sound date []).

Definition constructor (data : StoredItem) (sound : option string) (date : string)
  : Outcome :=
  match loadData (fresh data sound date) with
  | Done w => Done (updateUI w)
  | other => other
  end.

(** ** Mobile optimizations *)

(** The body of the branch of the [visibilitychange] listener that runs when
    the page is shown again, [elapsed] being the seconds spent hidden. *)
Definition resync (elapsed : Z) : Cmd :=
  ((fun w => on_this (set_timeRemaining
                        (Z.max 0 (timeRemaining (this w) - elapsed))) w) ;;
   on_this (set_backgroundTime None) ;;
   (fun w =>
      if timeRemaining (this w) <=? 0 then complete w
      else (updateDisplay ;; updateProgressRing)%cmd w))%cmd.

(** [hidden] is [document.hidden] and [now] is [Date.now()]. *)
Definition visibilitychange (hidden : bool) (now : Z) : Cmd :=
  fun w =>
    if hidden && isRunning (this w) then
      on_this (set_backgroundTime (Some now)) w
    else
      match backgroundTime (this w) with
      | Some since =>
          if negb hidden && negb (since =? 0) && isRunning (this w)
          then resync ((now - since) / 1000) w
          else w
      | None => w
      end.

(** ** The event loop *)

Inductive Event : Type :=
| click_startPauseBtn
| click_resetBtn
| click_skipBtn
| click_applySettings (work brk : string)   (* with the texts of the inputs *)
| click_soundToggle
| click_modeTab (work : bool)
| interval_fires (id : nat)
| timeout_fires
| visibility_changes (hidden : bool) (now : Z)
| date_changes (date : string).

(** A timer fires only while it is registered. *)
Definition enabled (e : Event) (w : World) : bool :=
  match e with
  | interval_fires id => existsb (Nat.eqb id) (intervals (host w))
  | timeout_fires => negb (Nat.eqb (timeouts (host w)) 0)
  | _ => true
  end.

Definition handle (e : Event) : Cmd :=
  match e with
  | click_startPauseBtn => toggle
  | click_resetBtn => reset
  | click_skipBtn => skip
  | click_applySettings work brk => applySettings work brk
  | click_soundToggle => toggleSound
  | click_modeTab work => switchMode work
  | interval_fires _ => tick
  | timeout_fires =>
      (on_host (fun h => set_timeouts (pred (timeouts h)) h) ;; deferred_switch)%cmd
  | visibility_changes hidden now => visibilitychange hidden now
  | date_changes date => on_host (set_dateString date)
  end.

Fixpoint run (es : list Event) (w : World) : World :=
  match es with
  | [] => w
  | e :: r => run r (handle e w)
  end.

(** Every event of the list is enabled when its turn comes. *)
Fixpoint feasible (es : list Event) (w : World) : bool :=
  match es with
  | [] => true
  | e :: r => enabled e w && feasible r (handle e w)
  end.

Inductive reachable : World -> Prop :=
| reach_constructed data sound date w :
    constructor data sound date = Done w -> reachable w
| reach_event e w :
    reachable w -> enabled e w = true -> reachable (handle e w).

(** ** Observations *)

(** How many times [complete] has run: each run shows one of its two toasts,
    and nothing else shows them. *)
Definition is_completion (e : Effect) : bool :=
  match e with
  | ShowToast GreatWork => true
  | ShowToast BreakOver => true
  | _ => false
  end.

Definition completions (w : World) : nat :=
  List.length (filter is_completion (presented (host w))).

Definition stats (w : World) : Z * Z * Z :=
  (sessionCount (this w), todayFocusMinutes (this w), currentStreak (this w)).

Definition duration_of_mode (w : World) : Z :=
  if isWorkMode (this w) then workDuration (this w) else breakDuration (this w).

(** The page a first visit constructs: nothing stored, no sound preference. *)
Definition new_page (date : string) : World :=
  updateUI (load_sound (fresh NoItem None date)).

(** The object knows the id of the only live subscription, and is running
    exactly when there is one. *)
Definition one_subscription (w : World) : Prop :=
  match timerInterval (this w) with
  | Some id => isRunning (this w) = true /\ intervals (host w) = [id]
  | None => isRunning (this w) = false /\ intervals (host w) = []
  end.

(** What cancelling the tick subscription amounts to: the object forgets its
    id and the id it held is no longer live. *)
Definition cancels_tick (c : Cmd) (w : World) : Prop :=
  timerInterval (this (c w)) = None /\
  intervals (host (c w))
  = match timerInterval (this w) with
    | Some id => remove_id id (intervals (host w))
    | None => intervals (host w)
    end.

(** The range of the two durations that [applySettings] establishes. *)
Definition config_ok (w : World) : Prop :=
  60 <= workDuration (this w) <= 7200 /\ 60 <= breakDuration (this w) <= 3600.

(** The values that [||] replaces. *)
Definition falsy_values : list jprim := [JNull; JBool false; JNum 0; JStr ""].

(** [result] is [fallback] when nothing or a falsy value is stored, and the
    stored value otherwise. *)
Inductive kept_or_default (stored : option jprim) (fallback : jprim)
  : jprim -> Prop :=
| default_for_missing :
    stored = None -> kept_or_default stored fallback fallback
| default_for_falsy v :
    stored = Some v -> In v falsy_values -> kept_or_default stored fallback fallback
| kept_as_stored v :
    stored = Some v -> ~ In v falsy_values -> kept_or_default stored fallback v.

(** ** What is written on the page *)

(** [String(n)] for an integer [n]: its decimal digits, after a minus sign
    when it is negative. *)
Definition String_of_number (n : Z) : string :=
  NilZero.string_of_int (Z.to_int n).

(** [text.padStart(target, pad)] for a [pad] of one character. *)
Definition padStart (target : nat) (pad : ascii) (text : string) : string :=
  string_of_list_ascii (repeat pad (target - String.length text)) ++ text.

(** The two texts and the title that [updateDisplay] writes for
    [timeRemaining]: [Math.floor(t / 60)] and [t % 60], the remainder having
    the sign of [t]. *)
Definition minutes_text (t : Z) : string :=
  padStart 2 "0" (String_of_number (t / 60)).

Definition seconds_text (t : Z) : string :=
  padStart 2 "0" (String_of_number (Z.rem t 60)).

Definition title_text (t : Z) (work : bool) : string :=
  minutes_text t ++ ":" ++ seconds_text t ++ " - "
  ++ (if work then "Work" else "Break") ++ " | Pomodoro".

(** Whether [parseInt] reads the text [String] writes for [k] as [k]. *)
Definition shows_itself (k : nat) : bool :=
  match parseInt (String_of_number (Z.of_nat k)) with
  | Some m => m =? Z.of_nat k
  | None => false
  end.

(** Whether the padded text for [k] reads as [k] and has the length of its
    digits, two at least; and the same for [- k], the sign counting. *)
Definition pads_well (k : nat) : bool :=
  let text := padStart 2 "0" (String_of_number (Z.of_nat k)) in
  match parseInt text with
  | Some m =>
      (m =? Z.of_nat k)
      && Nat.eqb (String.length text) (if (k <? 100)%nat then 2 else 3)
  | None => false
  end.

Definition pads_well_negative (k : nat) : bool :=
  let text := padStart 2 "0" (String_of_number (- Z.of_nat k)) in
  match parseInt text with
  | Some m =>
      (m =? - Z.of_nat k)
      && Nat.eqb (String.length text) (if (k <? 10)%nat then 2 else 3)
  | None => false
  end.

(** The text [updateBadge] writes, the status badge being on the page. *)
Inductive Badge : Type :=
| DeepFocusActive
| Recharging
| GoalAchieved
| SessionsToGoal (remaining : Z) (plural : bool)
| ReadyToBoost.

Definition badge_text (running work : bool) (sessions goal : Z) : Badge :=
  if running then (if work then DeepFocusActive else Recharging)
  else if goal <=? sessions then GoalAchieved
  else if 0 <? sessions then
         SessionsToGoal (goal - sessions) (1 <? goal - sessions)
  else ReadyToBoost.

(** What an effect of the log put on the page. *)
Definition badge_of (e : Effect) : option Badge :=
  match e with
  | UpdateBadge running work sessions goal =>
      Some (badge_text running work sessions goal)
  | _ => None
  end.

Definition clock_of (e : Effect) : option (string * string) :=
  match e with
  | UpdateDisplay remaining _ => Some (minutes_text remaining, seconds_text remaining)
  | _ => None
  end.

(** ** The double-tap guard *)

(** The [touchend] listener of [setupMobileOptimizations], [lastTap] being
    the variable it closes over: whether it calls [preventDefault], and the
    new [lastTap]. *)
Definition touchend (now lastTap : Z) : bool * Z :=
  (now - lastTap <? 300, now).

(** A series of taps, from [lastTap]: which of them are prevented. *)
Fixpoint touches (times : list Z) (lastTap : Z) : list bool :=
  match times with
  | [] => []
  | now :: later =>
      let (prevented, lastTap') := touchend now lastTap in
      prevented :: touches later lastTap'
  end.

(** ** The theme manager *)

Module ThemeManager.

(** The part of the page the class works on: whether the body has the class
    [light-mode], and what is stored under ['pomodoroTheme']. *)
Record Page : Type := mkPage {
  lightMode : bool;
  pomodoroTheme : option string
}.

Definition setTheme (theme : string) (p : Page) : Page :=
  mkPage (String.eqb theme "light") (pomodoroTheme p).

(** [prefersDark] is what the media query [(prefers-color-scheme: dark)]
    answers. *)
Definition loadTheme (prefersDark : bool) (p : Page) : Page :=
  match pomodoroTheme p with
  | Some saved =>
      if negb (String.eqb saved "")
      then setTheme saved p
      else setTheme (if prefersDark then "dark" else "light") p
  | None => setTheme (if prefersDark then "dark" else "light") p
  end.

Definition toggleTheme (p : Page) : Page :=
  let isLight := lightMode p in
  let newTheme := if isLight then "dark" else "light" in
  let p' := setTheme newTheme p in
  mkPage (lightMode p') (Some newTheme).

(** The listener for changes of the system theme, [matchesLight] being what
    the media query [(prefers-color-scheme: light)] answers now. *)
Definition system_change (matchesLight : bool) (p : Page) : Page :=
  match pomodoroTheme p with
  | Some saved =>
      if String.eqb saved ""
      then setTheme (if matchesLight then "light" else "dark") p
      else p
  | None => setTheme (if matchesLight then "light" else "dark") p
  end.

(** The constructor, on a page with the given body class and storage. *)
Definition constructor (prefersDark : bool) (p : Page) : Page :=
  loadTheme prefersDark p.

Inductive Event : Type :=
| click_themeToggle
| system_changes (matchesLight : bool).

Definition handle (e : Event) (p : Page) : Page :=
  match e with
  | click_themeToggle => toggleTheme p
  | system_changes matchesLight => system_change matchesLight p
  end.

Fixpoint run (es : list Event) (p : Page) : Page :=
  match es with
  | [] => p
  | e :: r => run r (handle e p)
  end.

End ThemeManager.

(** The page shows the theme that is stored, when one is. *)
Definition theme_shows_stored (p : ThemeManager.Page) : Prop :=
  match ThemeManager.pomodoroTheme p with
  | Some saved =>
      if String.eqb saved "" then True
      else ThemeManager.lightMode p = String.eqb saved "light"
  | None => True
  end.

(** ** Further observations *)

(** How many times the completion sound was played. *)
Definition is_sound (e : Effect) : bool :=
  match e with
  | PlaySound => true
  | _ => false
  end.

Definition sounds (w : World) : nat :=
  List.length (filter is_sound (presented (host w))).

(** What is stored is what the object holds, stamped with the date [d]; on a
    page where nothing was stored yet the object holds the defaults. *)
Definition mirrors (d : string) (w : World) : Prop :=
  match pomodoroData (host w) with
  | NoItem =>
      stats w = (0, 0, 0) /\
      workDuration (this w) = 1500 /\ breakDuration (this w) = 300
  | Json j =>
      j = saved_object (workDuration (this w)) (breakDuration (this w))
            (sessionCount (this w)) (todayFocusMinutes (this w))
            (currentStreak (this w)) d
  | _ => False
  end.

(** What the object keeps from a first visit on. *)
Definition well_kept (w : World) : Prop :=
  config_ok w /\
  totalTime (this w) = duration_of_mode w /\
  dailyGoal (this w) = 8 /\
  currentStreak (this w) = sessionCount (this w) /\
  sessionCount (this w) <= todayFocusMinutes (this w) <= 120 * sessionCount (this w).

(** What [n] ticks that do not end the countdown add to the log, from
    timeRemaining [t]. *)
Fixpoint shown_by_ticks (n : nat) (t total : Z) (work : bool)
  (shown : list Effect) : list Effect :=
  match n with
  | O => shown
  | S k =>
      shown_by_ticks k (t - 1) total work
        (UpdateProgressRing (t - 1) total :: UpdateDisplay (t - 1) work :: shown)
  end.

Definition is_date_change (e : Event) : bool :=
  match e with
  | date_changes _ => true
  | _ => false
  end.

(** * Properties *)

(** ** Tactics *)

(** Running the methods: unfold them and the field updates, by value, and
    leave the arithmetic alone. *)
Ltac run_cmds :=
  cbv [applySettings resync visibilitychange skip reset toggle tick complete
       start deferred_switch switchMode pause saveData toggleSound load_sound
       updateUI updateDisplay updateProgressRing updateButtonState
       updateStatusText updateStats updateBadge playSound showToast
       setTimeout_switch clearInterval setInterval emit seq on_this on_host
       handle stats completions duration_of_mode cancels_tick one_subscription
       config_ok
       is_completion filter length remove_id
       set_workDuration set_breakDuration set_timeRemaining set_totalTime
       set_isRunning set_isWorkMode set_timerInterval set_sessionCount
       set_todayFocusMinutes set_currentStreak set_soundEnabled
       set_backgroundTime set_intervals set_timeouts set_nextId
       set_pomodoroData set_pomodoroSound set_dateString set_presented
       this host workDuration breakDuration timeRemaining totalTime isRunning
       isWorkMode timerInterval sessionCount todayFocusMinutes currentStreak
       dailyGoal soundEnabled backgroundTime intervals timeouts nextId
       pomodoroData pomodoroSound dateString presented] in *.

(** The methods run on a world given by its fields, with the flags and the
    optional fields split into their cases. *)
Ltac crunch w :=
  let t := fresh "t" in
  let h := fresh "h" in
  destruct w as [t h];
  destruct t as [f_wd f_bd f_remaining f_total f_running f_work f_interval
                 f_sessions f_minutes f_streak f_goal f_sound f_background];
  destruct h as [h_live h_pending h_next h_stored h_pref h_date h_shown];
  destruct f_running, f_work, f_sound, f_interval, f_background;
  run_cmds.

(** The same under [one_subscription], which fixes the running flag and the
    live subscriptions once the id the object holds is known. *)
Ltac open_subscription w H :=
  let t := fresh "t" in
  let h := fresh "h" in
  destruct w as [t h];
  destruct t as [f_wd f_bd f_remaining f_total f_running f_work f_interval
                 f_sessions f_minutes f_streak f_goal f_sound f_background];
  destruct h as [h_live h_pending h_next h_stored h_pref h_date h_shown];
  cbv [one_subscription this host timerInterval isRunning intervals] in H;
  destruct f_interval;
  destruct H as [-> ->];
  destruct f_work, f_sound, f_background;
  run_cmds.

(** The conditions that stay undecided. *)
Ltac split_ifs :=
  repeat match goal with
         | |- context [if ?b then _ else _] => destruct b
         end.

(** ** The nearest integer *)

Lemma round_div60_nearest (x : Z) :
  60 * round_div60 x - 30 <= x < 60 * round_div60 x + 30.
Proof.
  unfold round_div60.
  pose proof (Z.div_mod (x + 30) 60 ltac:(lia)).
  pose proof (Z.mod_pos_bound (x + 30) 60 ltac:(lia)).
  lia.
Qed.

Lemma round_div60_minutes (m : Z) : round_div60 (m * 60) = m.
Proof.
  unfold round_div60.
  symmetry; apply (Z.div_unique (m * 60 + 30) 60 m 30); lia.
Qed.

(** ** What [pause], [switchMode] and [complete] leave alone *)

Lemma pause_stats (w : World) : stats (pause w) = stats w.
Proof. crunch w; reflexivity. Qed.

Lemma pause_completions (w : World) : completions (pause w) = completions w.
Proof. crunch w; reflexivity. Qed.

Lemma switchMode_stats (b : bool) (w : World) : stats (switchMode b w) = stats w.
Proof. crunch w; reflexivity. Qed.

Lemma complete_completions (w : World) :
  completions (complete w) = S (completions w).
Proof. crunch w; reflexivity. Qed.

Lemma complete_timeRemaining (w : World) :
  timeRemaining (this (complete w)) = timeRemaining (this w).
Proof. crunch w; reflexivity. Qed.

(** ** Frame effects of [skip] and [reset] *)

(** C8: neither [skip] nor [reset] changes sessionCount, currentStreak or
    todayFocusMinutes; [reset] keeps the mode and sets timeRemaining and
    totalTime to the configured duration of that mode. *)
Theorem C8_skip_reset_frame (w : World) :
  stats (skip w) = stats w /\
  stats (reset w) = stats w /\
  isWorkMode (this (reset w)) = isWorkMode (this w) /\
  workDuration (this (reset w)) = workDuration (this w) /\
  breakDuration (this (reset w)) = breakDuration (this w) /\
  timeRemaining (this (reset w)) = duration_of_mode w /\
  totalTime (this (reset w)) = duration_of_mode w.
Proof.
  unfold duration_of_mode, stats.
  crunch w; repeat split; reflexivity.
Qed.

(** ** Completion *)

Lemma new_page_constructed (date : string) :
  constructor NoItem None date = Done (new_page date).
Proof. reflexivity. Qed.

(** C2: in Work mode [complete] adds 1 to sessionCount and to currentStreak,
    adds round(workDuration / 60) to todayFocusMinutes and stores the updated
    stats; in Break mode the three stats and the stored item are unchanged.
    A state [w1] in Work mode with workDuration 1500 and zero stats ends with
    sessionCount 1, todayFocusMinutes 25 and currentStreak 1. *)
Theorem C2_complete_stats (w w1 : World)
  (Hmode : isWorkMode (this w1) = true)
  (Hduration : workDuration (this w1) = 1500)
  (Hzero : stats w1 = (0, 0, 0)) :
  (if isWorkMode (this w) then
     sessionCount (this (complete w)) = sessionCount (this w) + 1 /\
     currentStreak (this (complete w)) = currentStreak (this w) + 1 /\
     todayFocusMinutes (this (complete w))
     = todayFocusMinutes (this w) + round_div60 (workDuration (this w)) /\
     pomodoroData (host (complete w))
     = Json (saved_object (workDuration (this w)) (breakDuration (this w))
               (sessionCount (this w) + 1)
               (todayFocusMinutes (this w) + round_div60 (workDuration (this w)))
               (currentStreak (this w) + 1)
               (dateString (host w)))
   else
     stats (complete w) = stats w /\
     pomodoroData (host (complete w)) = pomodoroData (host w)) /\
  stats (complete w1) = (1, 25, 1).
Proof.
  split.
  - crunch w; repeat split; reflexivity.
  - crunch w1; try discriminate; subst;
      injection Hzero as -> -> ->; reflexivity.
Qed.

Lemma C2_complete_stats_witness :
  isWorkMode (this (new_page "Mon Nov 02 2026")) = true /\
  stats (complete (new_page "Mon Nov 02 2026")) = (1, 25, 1).
Proof.
  split; [reflexivity |].
  apply (C2_complete_stats (new_page "Mon Nov 02 2026") (new_page "Mon Nov 02 2026"));
    reflexivity.
Defined.

(** ** Background time *)

(** The two branches of [resync], on the clamped time. *)
Lemma resync_branches (elapsed : Z) (w : World) :
  resync elapsed w
  = let r := Z.max 0 (timeRemaining (this w) - elapsed) in
    let w1 := on_this (fun t => set_backgroundTime None (set_timeRemaining r t)) w in
    if r <=? 0 then complete w1
    else (updateDisplay ;; updateProgressRing)%cmd w1.
Proof. crunch w; reflexivity. Qed.

(** C3: [resync elapsed] sets timeRemaining to max(0, timeRemaining - elapsed),
    which is never negative; when that is 0 it runs [complete], once, and
    otherwise it only clears backgroundTime and redraws the display and the
    progress ring.  This holds in every state and for every [elapsed], so in
    particular in a running state and for [0 <= elapsed]. *)
Theorem C3_resync (w : World) (elapsed : Z) :
  let r := timeRemaining (this w) - elapsed in
  let w' := resync elapsed w in
  timeRemaining (this w') = Z.max 0 r /\
  0 <= timeRemaining (this w') /\
  (if r <=? 0 then
     timeRemaining (this w') = 0 /\
     completions w' = S (completions w) /\
     w' = complete (on_this (fun t => set_backgroundTime None (set_timeRemaining 0 t)) w)
   else
     completions w' = completions w /\
     this w' = set_backgroundTime None (set_timeRemaining r (this w)) /\
     host w' = set_presented
                 (UpdateProgressRing r (totalTime (this w))
                  :: UpdateDisplay r (isWorkMode (this w))
                  :: presented (host w)) (host w)).
Proof.
  cbv zeta. rewrite resync_branches. cbv zeta.
  destruct (timeRemaining (this w) - elapsed <=? 0) eqn:Hle.
  - apply Z.leb_le in Hle.
    rewrite Z.max_l by lia. change (0 <=? 0) with true. cbv iota.
    rewrite complete_timeRemaining, complete_completions.
    repeat split; try lia; crunch w; reflexivity.
  - apply Z.leb_gt in Hle.
    rewrite Z.max_r by lia. rewrite (proj2 (Z.leb_gt _ _) Hle).
    crunch w; repeat split; try reflexivity; lia.
Qed.

(** The listener runs [resync] when a running timer that was sent to the
    background at [since] is shown again at [now]. *)
Lemma visibilitychange_shown (w : World) (since now : Z) :
  isRunning (this w) = true ->
  backgroundTime (this w) = Some since ->
  since <> 0 ->
  visibilitychange false now w = resync ((now - since) / 1000) w.
Proof.
  intros Hrun Hbg Hsince. unfold visibilitychange.
  rewrite Hrun, Hbg.
  apply Z.eqb_neq in Hsince. rewrite Hsince. reflexivity.
Qed.

(** ** Ticks *)

(** The two branches of the callback, on the decremented time. *)
Lemma tick_branches (w : World) :
  tick w
  = let w1 := on_this (set_timeRemaining (timeRemaining (this w) - 1)) w in
    if timeRemaining (this w) - 1 <=? 0 then complete w1
    else (updateDisplay ;; updateProgressRing)%cmd w1.
Proof. crunch w; reflexivity. Qed.

Lemma tick_above_one (w : World) :
  1 < timeRemaining (this w) ->
  timeRemaining (this (tick w)) = timeRemaining (this w) - 1 /\
  completions (tick w) = completions w /\
  stats (tick w) = stats w /\
  intervals (host (tick w)) = intervals (host w) /\
  timerInterval (this (tick w)) = timerInterval (this w).
Proof.
  intros Hr. rewrite tick_branches. cbv zeta.
  destruct (timeRemaining (this w) - 1 <=? 0) eqn:Hle.
  - apply Z.leb_le in Hle. lia.
  - crunch w; repeat split; reflexivity.
Qed.

Lemma tick_completes (w : World) :
  timeRemaining (this w) <= 1 ->
  tick w = complete (on_this (set_timeRemaining (timeRemaining (this w) - 1)) w).
Proof.
  intros Hr. rewrite tick_branches. cbv zeta.
  destruct (timeRemaining (this w) - 1 <=? 0) eqn:Hle.
  - reflexivity.
  - apply Z.leb_gt in Hle. lia.
Qed.

(** The last tick of a countdown runs [complete], once. *)
Lemma tick_at_one (w : World) :
  timeRemaining (this w) = 1 ->
  timeRemaining (this (tick w)) = 0 /\
  completions (tick w) = S (completions w) /\
  intervals (host (tick w))
  = match timerInterval (this w) with
    | Some id => remove_id id (intervals (host w))
    | None => intervals (host w)
    end.
Proof.
  intros Hr. rewrite tick_completes by lia.
  rewrite complete_timeRemaining, complete_completions.
  split; [| split]; crunch w; try reflexivity; lia.
Qed.

(** A tick at 0 runs [complete] as well: the callback has no guard of its
    own. *)
Lemma tick_at_zero (w : World) :
  timeRemaining (this w) = 0 ->
  timeRemaining (this (tick w)) = -1 /\
  completions (tick w) = S (completions w).
Proof.
  intros Hr. rewrite tick_completes by lia.
  rewrite complete_timeRemaining, complete_completions.
  split; crunch w; try reflexivity; lia.
Qed.

(** ** One tick subscription *)

Lemma pause_one_subscription (w : World) :
  one_subscription w -> one_subscription (pause w).
Proof.
  intros H. open_subscription w H; rewrite ?Nat.eqb_refl; auto.
Qed.

Lemma complete_one_subscription (w : World) :
  one_subscription w -> one_subscription (complete w).
Proof.
  intros H. open_subscription w H; rewrite ?Nat.eqb_refl; auto.
Qed.

Lemma set_timeRemaining_one_subscription (r : Z) (w : World) :
  one_subscription w -> one_subscription (on_this (set_timeRemaining r) w).
Proof.
  intros H. open_subscription w H; auto.
Qed.

Lemma handle_one_subscription (e : Event) (w : World) :
  one_subscription w -> one_subscription (handle e w).
Proof.
  intros H.
  destruct e as [| | | wtext btext | | towork | id | | hidden now | day];
    unfold handle.
  - open_subscription w H; rewrite ?Nat.eqb_refl; auto.
  - open_subscription w H; rewrite ?Nat.eqb_refl; auto.
  - open_subscription w H; rewrite ?Nat.eqb_refl; auto.
  - open_subscription w H; rewrite ?Nat.eqb_refl; auto.
  - open_subscription w H; auto.
  - open_subscription w H; destruct towork; auto.
  - rewrite tick_branches. cbv zeta.
    match goal with |- context [if ?b then _ else _] => destruct b end.
    + apply complete_one_subscription, set_timeRemaining_one_subscription, H.
    + open_subscription w H; auto.
  - open_subscription w H; auto.
  - unfold visibilitychange.
    destruct (hidden && isRunning (this w)).
    + open_subscription w H; auto.
    + destruct (backgroundTime (this w)) as [since |]; [| exact H].
      destruct (negb hidden && negb (since =? 0) && isRunning (this w)); [| exact H].
      rewrite resync_branches. cbv zeta.
      match goal with |- context [if ?b then _ else _] => destruct b end.
      * apply complete_one_subscription. open_subscription w H; auto.
      * open_subscription w H; auto.
  - open_subscription w H; auto.
Qed.

Lemma constructor_one_subscription data sound date (w : World) :
  constructor data sound date = Done w -> one_subscription w.
Proof.
  unfold constructor, loadData.
  destruct (loadData_values _ _) as [e | [l |]]; try discriminate.
  - destruct (numbers l) as [[[[[wd bd] sc] tfm] cs] |]; try discriminate.
    intros [= <-]. cbv [fresh]. run_cmds.
    destruct sound as [pref |]; [destruct (String.eqb pref "false") |]; auto.
  - intros [= <-]. cbv [fresh]. run_cmds.
    destruct sound as [pref |]; [destruct (String.eqb pref "false") |]; auto.
Qed.

Lemma reachable_one_subscription (w : World) :
  reachable w -> one_subscription w.
Proof.
  induction 1 as [data sound date w Hc | e w _ IH _].
  - exact (constructor_one_subscription _ _ _ _ Hc).
  - exact (handle_one_subscription e w IH).
Qed.

(** ** A countdown *)

(** From [n + 1] seconds, with one live subscription, [n + 1] ticks can fire;
    they bring timeRemaining to 0, run [complete] once and leave no
    subscription behind, so that no further tick of it is delivered. *)
Lemma countdown (n : nat) : forall (w : World) (id : nat),
  timerInterval (this w) = Some id ->
  intervals (host w) = [id] ->
  timeRemaining (this w) = Z.of_nat (S n) ->
  let es := repeat (interval_fires id) (S n) in
  feasible es w = true /\
  timeRemaining (this (run es w)) = 0 /\
  completions (run es w) = S (completions w) /\
  intervals (host (run es w)) = [] /\
  enabled (interval_fires id) (run es w) = false.
Proof.
  induction n as [| n IH]; intros w id Hid Hlive Hr; cbn zeta.
  - cbn [repeat feasible run handle enabled].
    destruct (tick_at_one w) as (H0 & Hc & Hi); [ rewrite Hr; reflexivity |].
    rewrite Hi, Hid, Hlive, H0, Hc.
    cbv [existsb remove_id]. rewrite Nat.eqb_refl.
    repeat split; reflexivity.
  - change (repeat (interval_fires id) (S (S n)))
      with (interval_fires id :: repeat (interval_fires id) (S n)).
    cbn [feasible run handle enabled].
    destruct (tick_above_one w) as (Hr' & Hc & _ & Hi & Ht); [ lia |].
    destruct (IH (tick w) id) as (Hf & H0 & Hc' & Hnil & Hoff).
    + rewrite Ht; exact Hid.
    + rewrite Hi; exact Hlive.
    + rewrite Hr', Hr. lia.
    + rewrite Hlive. cbv [existsb]. rewrite Nat.eqb_refl.
      rewrite Hf, H0, Hc', Hc, Hnil.
      repeat split; first [reflexivity | exact Hoff].
Qed.

(** C1 (the code departs from it): a countdown of the default work session
    runs [complete] once, at 0, and cancels its subscription; a click on the
    start/pause button before the deferred switch subscribes again, and the
    next tick, delivered at timeRemaining 0, takes it to -1 and runs
    [complete] a second time, counting the session twice.  (The new interval
    ticks 1000 ms after the click and the switch comes 1500 ms after the
    completion: the tick is first when the click follows the completion by
    less than half a second.) *)
Theorem C1_tick_at_zero_completes_again :
  let w0 := new_page "Mon Nov 02 2026" in
  let countdown := click_startPauseBtn :: repeat (interval_fires 1%nat) 1500 in
  let restart := [click_startPauseBtn; interval_fires 2%nat] in
  let w1 := run countdown w0 in
  let w2 := run restart w1 in
  feasible (countdown ++ restart) w0 = true /\
  (timeRemaining (this w1), completions w1, stats w1) = (0, 1%nat, (1, 25, 1)) /\
  (isWorkMode (this w1), timeouts (host w1)) = (true, 1%nat) /\
  (timeRemaining (this w2), completions w2, stats w2) = (-1, 2%nat, (2, 50, 2)).
Proof. vm_compute. repeat split; reflexivity. Qed.

(** ** The deferred switch *)

(** C7 (as stated, refuted): after a completed work session a deferred switch
    is outstanding; [pause], [reset] and [skip] leave it outstanding and
    [complete] adds a second one.  After [skip] has moved the timer to Break
    mode the stale switch may still fire, and moves it back to Work mode. *)
Lemma C7_stale_switch_fires :
  let w1 := run (click_startPauseBtn :: repeat (interval_fires 1%nat) 1500)
              (new_page "Mon Nov 02 2026") in
  let w2 := handle click_skipBtn w1 in
  let w3 := handle timeout_fires w2 in
  timeouts (host w1) = 1%nat /\
  timeouts (host (pause w1)) = 1%nat /\
  timeouts (host (reset w1)) = 1%nat /\
  timeouts (host (skip w1)) = 1%nat /\
  timeouts (host (complete w1)) = 2%nat /\
  enabled timeout_fires w2 = true /\
  (isWorkMode (this w2), timeRemaining (this w2)) = (false, 300) /\
  (isWorkMode (this w3), timeRemaining (this w3)) = (true, 1500).
Proof. vm_compute. repeat split; reflexivity. Qed.

(** C7 (amended): [pause], [reset], [skip] and [complete] cancel the tick
    subscription and nothing else: the first three leave the number of
    outstanding deferred switches as it is and [complete] adds one.  A
    deferred switch that fires moves the timer to the opposite of the mode it
    is in at that moment, with the full duration of the new mode, and changes
    neither the stats, nor the number of completions, nor whether the timer is
    running. *)
Theorem C7_deferred_switch_outstanding (w : World) :
  (cancels_tick pause w /\ timeouts (host (pause w)) = timeouts (host w)) /\
  (cancels_tick reset w /\ timeouts (host (reset w)) = timeouts (host w)) /\
  (cancels_tick skip w /\ timeouts (host (skip w)) = timeouts (host w)) /\
  (cancels_tick complete w /\ timeouts (host (complete w)) = S (timeouts (host w))) /\
  let w' := handle timeout_fires w in
  timeouts (host w') = pred (timeouts (host w)) /\
  isWorkMode (this w') = negb (isWorkMode (this w)) /\
  timeRemaining (this w') = duration_of_mode w' /\
  totalTime (this w') = duration_of_mode w' /\
  stats w' = stats w /\
  completions w' = completions w /\
  isRunning (this w') = isRunning (this w) /\
  intervals (host w') = intervals (host w).
Proof.
  crunch w; repeat split; reflexivity.
Qed.

(** ** Starting twice *)

(** C9 (as stated, refuted): a second [start] on the running timer registers a
    second subscription and forgets the id of the first, which [pause] can
    then no longer cancel; with both live, one second brings two ticks. *)
Lemma C9_second_start_subscribes_again :
  let w1 := start (new_page "Mon Nov 02 2026") in
  let w2 := start w1 in
  (isRunning (this w1), timerInterval (this w1), intervals (host w1))
  = (true, Some 1%nat, [1%nat]) /\
  (isRunning (this w2), timerInterval (this w2), intervals (host w2))
  = (true, Some 2%nat, [2%nat; 1%nat]) /\
  feasible [interval_fires 1%nat; interval_fires 2%nat] w2 = true /\
  timeRemaining (this (run [interval_fires 1%nat; interval_fires 2%nat] w2)) = 1498 /\
  intervals (host (pause w2)) = [1%nat].
Proof. vm_compute. repeat split; reflexivity. Qed.

(** C9 (amended): [start] is not idempotent: every call registers one more
    subscription and keeps the newest id only.  Its one caller, [toggle],
    calls it only when the timer is not running; so in every state reached
    from the constructor through the events of the page a running timer has
    exactly one live subscription, whose id the object holds, and a click on
    the start/pause button pauses it, and a timer that is not running has no
    live subscription and the click starts it. *)
Theorem C9_start_only_when_not_running (w v : World) (Hreach : reachable w) :
  (intervals (host (start v)) = nextId (host v) :: intervals (host v) /\
   timerInterval (this (start v)) = Some (nextId (host v)) /\
   isRunning (this (start v)) = true) /\
  (if isRunning (this w) then
     (exists id, timerInterval (this w) = Some id /\ intervals (host w) = [id]) /\
     handle click_startPauseBtn w = pause w /\
     intervals (host (handle click_startPauseBtn w)) = []
   else
     timerInterval (this w) = None /\ intervals (host w) = [] /\
     handle click_startPauseBtn w = start w /\
     intervals (host (handle click_startPauseBtn w)) = [nextId (host w)]).
Proof.
  split.
  - crunch v; repeat split; reflexivity.
  - apply reachable_one_subscription in Hreach.
    open_subscription w Hreach; rewrite ?Nat.eqb_refl;
      repeat split; eauto.
Qed.

Lemma C9_start_only_when_not_running_witness :
  reachable (handle click_startPauseBtn (new_page "Mon Nov 02 2026")) /\
  intervals (host (handle click_startPauseBtn
                     (handle click_startPauseBtn (new_page "Mon Nov 02 2026")))) = [].
Proof.
  assert (Hreach : reachable (handle click_startPauseBtn (new_page "Mon Nov 02 2026"))).
  { apply reach_event; [| reflexivity].
    apply (reach_constructed NoItem None "Mon Nov 02 2026"). reflexivity. }
  split; [exact Hreach |].
  exact (proj2 (proj2 (proj2 (C9_start_only_when_not_running _
                                 (new_page "Mon Nov 02 2026") Hreach)))).
Defined.

(** ** Settings *)

(** C5 (as stated, refuted): with the inputs 0 and 200 the break becomes 60
    minutes, but the work duration becomes the default 25 minutes (1500 s),
    not 1 minute (60 s): [parseInt("0") || 25] is 25. *)
Lemma C5_zero_input_takes_default :
  let w := applySettings "0" "200" (new_page "Mon Nov 02 2026") in
  parseInt "0" = Some 0 /\
  workDuration (this w) = 1500 /\
  workDuration (this w) <> 60 /\
  breakDuration (this w) = 3600.
Proof. vm_compute. repeat split; try reflexivity; discriminate. Qed.

(** C5 (amended): an input that [parseInt] reads as NaN or as 0 counts as the
    default, 25 minutes of work and 5 of break; any other number is clamped to
    [1,120] for work and [1,60] for break.  The durations are these minutes in
    seconds, the timer is paused and timeRemaining and totalTime are the new
    duration of the current mode, the stats are unchanged, and the durations
    are stored together with the stats.  The inputs 0 and 200 give 1500 s of
    work and 3600 s of break; the inputs -3 and 7 give 60 s and 420 s. *)
Theorem C5_applySettings (work brk : string) (w : World) :
  let w' := applySettings work brk w in
  workDuration (this w')
  = 60 * match parseInt work with
         | None => 25
         | Some 0 => 25
         | Some n => Z.max 1 (Z.min 120 n)
         end /\
  breakDuration (this w')
  = 60 * match parseInt brk with
         | None => 5
         | Some 0 => 5
         | Some n => Z.max 1 (Z.min 60 n)
         end /\
  60 <= workDuration (this w') <= 7200 /\
  60 <= breakDuration (this w') <= 3600 /\
  isWorkMode (this w') = isWorkMode (this w) /\
  isRunning (this w') = false /\
  timeRemaining (this w') = duration_of_mode w' /\
  totalTime (this w') = duration_of_mode w' /\
  stats w' = stats w /\
  pomodoroData (host w')
  = Json (saved_object (workDuration (this w')) (breakDuration (this w'))
            (sessionCount (this w)) (todayFocusMinutes (this w))
            (currentStreak (this w)) (dateString (host w))) /\
  (workDuration (this (applySettings "0" "200" w)),
   breakDuration (this (applySettings "0" "200" w))) = (1500, 3600) /\
  (workDuration (this (applySettings "-3" "7" w)),
   breakDuration (this (applySettings "-3" "7" w))) = (60, 420).
Proof.
  cbv zeta.
  assert (Hwd : workDuration (this (applySettings work brk w))
                = Z.max 1 (Z.min 120 (parseInt_or work 25)) * 60)
    by (crunch w; reflexivity).
  assert (Hbd : breakDuration (this (applySettings work brk w))
                = Z.max 1 (Z.min 60 (parseInt_or brk 5)) * 60)
    by (crunch w; reflexivity).
  assert (Hrest :
    isWorkMode (this (applySettings work brk w)) = isWorkMode (this w) /\
    isRunning (this (applySettings work brk w)) = false /\
    timeRemaining (this (applySettings work brk w))
    = duration_of_mode (applySettings work brk w) /\
    totalTime (this (applySettings work brk w))
    = duration_of_mode (applySettings work brk w) /\
    stats (applySettings work brk w) = stats w /\
    pomodoroData (host (applySettings work brk w))
    = Json (saved_object (workDuration (this (applySettings work brk w)))
              (breakDuration (this (applySettings work brk w)))
              (sessionCount (this w)) (todayFocusMinutes (this w))
              (currentStreak (this w)) (dateString (host w)))).
  { crunch w; repeat split; reflexivity. }
  rewrite Hwd, Hbd in *.
  split; [| split; [| split; [lia | split; [lia | ] ] ] ].
  - unfold parseInt_or. destruct (parseInt work) as [[| p | p] |];
      cbv [Z.eqb]; lia.
  - unfold parseInt_or. destruct (parseInt brk) as [[| p | p] |];
      cbv [Z.eqb]; lia.
  - destruct Hrest as (H1 & H2 & H3 & H4 & H5 & H6).
    repeat (split; [assumption |]).
    split; crunch w; vm_compute; reflexivity.
Qed.

(** ** Defaults *)

(** C10: with nothing stored the constructor yields workDuration 1500 and
    breakDuration 300, Work mode, not running, timeRemaining and totalTime
    1500; and a settings input that [parseInt] reads as NaN is replaced by 25
    (work) or 5 (break) before the clamping, which gives 1500 s and 300 s. *)
Theorem C10_defaults (sound : option string) (date work brk other : string)
  (w : World)
  (Hwork : parseInt work = None) (Hbrk : parseInt brk = None) :
  match constructor NoItem sound date with
  | Done w0 =>
      workDuration (this w0) = 1500 /\ breakDuration (this w0) = 300 /\
      isWorkMode (this w0) = true /\ isRunning (this w0) = false /\
      timeRemaining (this w0) = workDuration (this w0) /\
      totalTime (this w0) = workDuration (this w0)
  | _ => False
  end /\
  parseInt_or work 25 = 25 /\
  parseInt_or brk 5 = 5 /\
  workDuration (this (applySettings work other w)) = 25 * 60 /\
  breakDuration (this (applySettings other brk w)) = 5 * 60.
Proof.
  assert (Hw : parseInt_or work 25 = 25) by (unfold parseInt_or; rewrite Hwork; reflexivity).
  assert (Hb : parseInt_or brk 5 = 5) by (unfold parseInt_or; rewrite Hbrk; reflexivity).
  split; [| split; [exact Hw | split; [exact Hb | split] ] ].
  - cbv [constructor loadData loadData_values fresh]. run_cmds.
    destruct sound as [pref |]; [destruct (String.eqb pref "false") |];
      repeat split; reflexivity.
  - transitivity (Z.max 1 (Z.min 120 (parseInt_or work 25)) * 60).
    + crunch w; reflexivity.
    + rewrite Hw. reflexivity.
  - transitivity (Z.max 1 (Z.min 60 (parseInt_or brk 5)) * 60).
    + crunch w; reflexivity.
    + rewrite Hb. reflexivity.
Qed.

Lemma C10_defaults_witness :
  parseInt "abc" = None /\ parseInt "" = None /\
  workDuration (this (applySettings "abc" "10" (new_page "Mon Nov 02 2026"))) = 25 * 60 /\
  breakDuration (this (applySettings "10" "" (new_page "Mon Nov 02 2026"))) = 5 * 60.
Proof.
  split; [reflexivity | split; [reflexivity |] ].
  exact (proj2 (proj2 (proj2 (C10_defaults None "Mon Nov 02 2026" "abc" "" "10"
                                 (new_page "Mon Nov 02 2026") eq_refl eq_refl)))).
Defined.

(** ** Loading *)

Lemma js_or_nonzero (n : Z) (fallback : jprim) :
  n <> 0 -> js_or (Some (JNum n)) fallback = JNum n.
Proof. intros Hn. cbn. apply Z.eqb_neq in Hn. rewrite Hn. reflexivity. Qed.

Lemma js_or_zero_default (n : Z) : js_or (Some (JNum n)) (JNum 0) = JNum n.
Proof.
  cbn. destruct (n =? 0) eqn:Hn; cbn; [| reflexivity].
  apply Z.eqb_eq in Hn. subst. reflexivity.
Qed.

(** Numbers are read back: the durations as they are, the stats as they are
    on the day of lastDate and as 0 on any other day. *)
Lemma assigned_numbers (fields : list (string * jprim))
  (wd bd sc tfm cs : Z) (lastDate today : string) :
  own_property "workDuration" fields = Some (JNum wd) ->
  own_property "breakDuration" fields = Some (JNum bd) ->
  own_property "sessionCount" fields = Some (JNum sc) ->
  own_property "todayFocusMinutes" fields = Some (JNum tfm) ->
  own_property "currentStreak" fields = Some (JNum cs) ->
  own_property "lastDate" fields = Some (JStr lastDate) ->
  wd <> 0 -> bd <> 0 ->
  assigned today fields
  = if String.eqb lastDate today
    then mkLoaded (JNum wd) (JNum bd) (JNum sc) (JNum tfm) (JNum cs)
    else mkLoaded (JNum wd) (JNum bd) (JNum 0) (JNum 0) (JNum 0).
Proof.
  intros H1 H2 H3 H4 H5 H6 Hwd Hbd. unfold assigned.
  rewrite H1, H2, H3, H4, H5, H6. cbn [is_date].
  rewrite (js_or_nonzero wd) by assumption.
  rewrite (js_or_nonzero bd) by assumption.
  rewrite !js_or_zero_default.
  destruct (String.eqb lastDate today); reflexivity.
Qed.

(** The constructor on a stored object whose fields are numbers. *)
Lemma constructor_reads_numbers (fields : list (string * jprim))
  (wd bd sc tfm cs : Z) (lastDate today : string) (sound : option string) :
  own_property "workDuration" fields = Some (JNum wd) ->
  own_property "breakDuration" fields = Some (JNum bd) ->
  own_property "sessionCount" fields = Some (JNum sc) ->
  own_property "todayFocusMinutes" fields = Some (JNum tfm) ->
  own_property "currentStreak" fields = Some (JNum cs) ->
  own_property "lastDate" fields = Some (JStr lastDate) ->
  wd <> 0 -> bd <> 0 ->
  match constructor (Json (JObject fields)) sound today with
  | Done w =>
      workDuration (this w) = wd /\ breakDuration (this w) = bd /\
      stats w = (if String.eqb lastDate today then (sc, tfm, cs) else (0, 0, 0))
  | _ => False
  end.
Proof.
  intros H1 H2 H3 H4 H5 H6 Hwd Hbd.
  cbv [constructor loadData loadData_values properties fresh
       host this dateString pomodoroData].
  rewrite (assigned_numbers fields wd bd sc tfm cs lastDate) by assumption.
  destruct (String.eqb lastDate today); cbv [numbers]; run_cmds;
    (destruct sound as [pref |]; [destruct (String.eqb pref "false") |]);
    repeat split; reflexivity.
Qed.

(** What [saveData] stores is read back by a constructor on the same day. *)
Lemma saveData_round_trip (w : World) (sound : option string) :
  workDuration (this w) <> 0 -> breakDuration (this w) <> 0 ->
  match constructor (pomodoroData (host (saveData w))) sound (dateString (host w)) with
  | Done w' =>
      workDuration (this w') = workDuration (this w) /\
      breakDuration (this w') = breakDuration (this w) /\
      stats w' = stats w
  | _ => False
  end.
Proof.
  intros Hwd Hbd.
  pose proof (constructor_reads_numbers
                [ ("workDuration", JNum (workDuration (this w)));
                  ("breakDuration", JNum (breakDuration (this w)));
                  ("sessionCount", JNum (sessionCount (this w)));
                  ("todayFocusMinutes", JNum (todayFocusMinutes (this w)));
                  ("currentStreak", JNum (currentStreak (this w)));
                  ("lastDate", JStr (dateString (host w))) ]
                _ _ _ _ _ _ (dateString (host w)) sound
                eq_refl eq_refl eq_refl eq_refl eq_refl eq_refl Hwd Hbd) as H.
  rewrite String.eqb_refl in H. exact H.
Qed.

(** The durations stay in range: from a first visit on, whatever the page
    stores has durations other than 0, and so has what a later visit loads. *)
Lemma handle_config_ok (e : Event) (w : World) :
  config_ok w -> config_ok (handle e w).
Proof.
  intros H.
  destruct e as [| | | wtext btext | | towork | id | | hidden now | day];
    crunch w; split_ifs; cbv [this workDuration breakDuration]; lia.
Qed.

Lemma new_page_config_ok (date : string) : config_ok (new_page date).
Proof. cbv [new_page fresh]. run_cmds. lia. Qed.

Lemma reload_config_ok (w : World) (sound : option string) (today : string) :
  config_ok w ->
  match constructor (pomodoroData (host (saveData w))) sound today with
  | Done w' => config_ok w'
  | _ => False
  end.
Proof.
  intros [Hwd Hbd].
  pose proof (constructor_reads_numbers
                [ ("workDuration", JNum (workDuration (this w)));
                  ("breakDuration", JNum (breakDuration (this w)));
                  ("sessionCount", JNum (sessionCount (this w)));
                  ("todayFocusMinutes", JNum (todayFocusMinutes (this w)));
                  ("currentStreak", JNum (currentStreak (this w)));
                  ("lastDate", JStr (dateString (host w))) ]
                _ _ _ _ _ _ today sound
                eq_refl eq_refl eq_refl eq_refl eq_refl eq_refl
                ltac:(lia) ltac:(lia)) as H.
  change (pomodoroData (host (saveData w)))
    with (Json (saved_object (workDuration (this w)) (breakDuration (this w))
                  (sessionCount (this w)) (todayFocusMinutes (this w))
                  (currentStreak (this w)) (dateString (host w)))).
  unfold saved_object.
  destruct (constructor _ sound today) as [| | w']; try contradiction.
  destruct H as (Hw & Hb & _). unfold config_ok. rewrite Hw, Hb. split; assumption.
Qed.

(** No handler reads the date, except [saveData] to stamp what it stores: the
    object after an event is the same whatever the date is. *)
Lemma handle_ignores_date (e : Event) (w : World) (date : string) :
  this (handle e (on_host (set_dateString date) w)) = this (handle e w).
Proof.
  destruct e as [| | | wtext btext | | towork | id | | hidden now | day];
    crunch w; split_ifs; reflexivity.
Qed.

(** C4: loading a stored object whose fields are numbers, with durations other
    than 0, keeps the stored workDuration and breakDuration; it keeps the
    stored sessionCount, todayFocusMinutes and currentStreak when lastDate is
    today's date and sets all three to 0 when it is not.  The comparison of
    dates happens in the constructor only: a change of date leaves the object
    as it is, and the object after any event does not depend on the date. *)
Theorem C4_daily_rollover (fields : list (string * jprim))
  (wd bd sc tfm cs : Z) (lastDate today : string) (sound : option string)
  (Hworks : own_property "workDuration" fields = Some (JNum wd))
  (Hbreaks : own_property "breakDuration" fields = Some (JNum bd))
  (Hsessions : own_property "sessionCount" fields = Some (JNum sc))
  (Hminutes : own_property "todayFocusMinutes" fields = Some (JNum tfm))
  (Hstreak : own_property "currentStreak" fields = Some (JNum cs))
  (Hdate : own_property "lastDate" fields = Some (JStr lastDate))
  (Hwd : wd <> 0) (Hbd : bd <> 0) :
  match constructor (Json (JObject fields)) sound today with
  | Done w =>
      workDuration (this w) = wd /\ breakDuration (this w) = bd /\
      stats w = (if String.eqb lastDate today then (sc, tfm, cs) else (0, 0, 0))
  | _ => False
  end /\
  (forall (w : World) (date : string),
     this (handle (date_changes date) w) = this w) /\
  (forall (e : Event) (w : World) (date : string),
     this (handle e (on_host (set_dateString date) w)) = this (handle e w)).
Proof.
  split; [| split].
  - now apply constructor_reads_numbers.
  - intros w date. destruct w; reflexivity.
  - intros e w date. apply handle_ignores_date.
Qed.

Lemma C4_daily_rollover_witness :
  match constructor (Json (saved_object 1500 300 3 75 3 "Sun Nov 01 2026")) None
          "Mon Nov 02 2026" with
  | Done w =>
      workDuration (this w) = 1500 /\ breakDuration (this w) = 300 /\
      stats w = (0, 0, 0)
  | _ => False
  end.
Proof.
  exact (proj1 (C4_daily_rollover
                  [ ("workDuration", JNum 1500); ("breakDuration", JNum 300);
                    ("sessionCount", JNum 3); ("todayFocusMinutes", JNum 75);
                    ("currentStreak", JNum 3);
                    ("lastDate", JStr "Sun Nov 01 2026") ]
                  1500 300 3 75 3 "Sun Nov 01 2026" "Mon Nov 02 2026" None
                  eq_refl eq_refl eq_refl eq_refl eq_refl eq_refl
                  ltac:(discriminate) ltac:(discriminate))).
Defined.

Lemma truthy_not_falsy (v : jprim) : truthy v = true -> ~ In v falsy_values.
Proof.
  intros Ht [H | [H | [H | [H | []]]]]; subst; discriminate.
Qed.

Lemma not_truthy_falsy (v : jprim) : truthy v = false -> In v falsy_values.
Proof.
  destruct v as [| [|] | n | s]; cbn; intros Ht; try discriminate; auto.
  - apply negb_false_iff, Z.eqb_eq in Ht. subst. auto.
  - apply negb_false_iff, String.eqb_eq in Ht. subst. auto 6.
Qed.

Lemma js_or_kept_or_default (stored : option jprim) (fallback : jprim) :
  kept_or_default stored fallback (js_or stored fallback).
Proof.
  destruct stored as [v |]; cbn.
  - destruct (truthy v) eqn:Ht.
    + apply (kept_as_stored _ _ v); [reflexivity | now apply truthy_not_falsy].
    + apply (default_for_falsy _ _ v); [reflexivity | now apply not_truthy_falsy].
  - now apply default_for_missing.
Qed.

(** C6 (as stated, refuted): an unparsable text and the text [null] make the
    constructor throw; a negative workDuration and a negative sessionCount are
    kept, so that the timer starts at -5 seconds; a workDuration that is a
    non-numeric text is kept too, and no default is put in its place. *)
Lemma C6_malformed_data_kept_or_thrown :
  constructor Unparsable None "Mon Nov 02 2026" = Threw SyntaxError /\
  constructor (Json (JPrim JNull)) None "Mon Nov 02 2026" = Threw TypeError /\
  match constructor
          (Json (JObject [ ("workDuration", JNum (-5)); ("sessionCount", JNum (-2));
                           ("lastDate", JStr "Mon Nov 02 2026") ]))
          None "Mon Nov 02 2026" with
  | Done w =>
      (workDuration (this w), timeRemaining (this w), sessionCount (this w))
      = (-5, -5, -2)
  | _ => False
  end /\
  match constructor (Json (JObject [ ("workDuration", JStr "abc") ]))
          None "Mon Nov 02 2026" with
  | NotNumbers l => ld_workDuration l = JStr "abc"
  | _ => False
  end.
Proof. vm_compute. repeat split; reflexivity. Qed.

(** C6 (amended): loading throws exactly for a non-empty text that does not
    parse (SyntaxError) and for the text [null] (TypeError), and then so does
    the constructor.  When nothing or the empty text is stored nothing is
    assigned.  Otherwise a duration that is missing or falsy (null, false, 0,
    the empty text) becomes its default, 1500 or 300, and any other stored
    value is kept as it is, a negative number or a non-numeric text included;
    on the day of lastDate the same holds of the three stats with default 0,
    and on any other day the three stats are 0. *)
Theorem C6_loading (today : string) (saved : StoredItem) (sound : option string) :
  match loadData_values today saved with
  | inl SyntaxError => saved = Unparsable
  | inl TypeError => saved = Json (JPrim JNull)
  | inr None => saved = NoItem \/ saved = EmptyText
  | inr (Some l) =>
      exists data fields,
        saved = Json data /\ data <> JPrim JNull /\
        properties data = inr fields /\
        kept_or_default (own_property "workDuration" fields) (JNum 1500)
          (ld_workDuration l) /\
        kept_or_default (own_property "breakDuration" fields) (JNum 300)
          (ld_breakDuration l) /\
        if is_date (own_property "lastDate" fields) today then
          kept_or_default (own_property "sessionCount" fields) (JNum 0)
            (ld_sessionCount l) /\
          kept_or_default (own_property "todayFocusMinutes" fields) (JNum 0)
            (ld_todayFocusMinutes l) /\
          kept_or_default (own_property "currentStreak" fields) (JNum 0)
            (ld_currentStreak l)
        else
          ld_sessionCount l = JNum 0 /\ ld_todayFocusMinutes l = JNum 0 /\
          ld_currentStreak l = JNum 0
  end /\
  match constructor saved sound today, loadData_values today saved with
  | Threw e, inl e' => e = e'
  | Threw _, inr _ => False
  | _, inl _ => False
  | _, inr _ => True
  end.
Proof.
  split.
  - destruct saved as [| | | data]; cbn; auto.
    destruct (properties data) as [e | fields] eqn:Hp.
    + destruct data as [[| b | n | s] | | fs]; cbn in Hp; try discriminate.
      injection Hp as <-. reflexivity.
    + exists data, fields. split; [reflexivity |].
      split; [intros ->; discriminate |]. split; [exact Hp |].
      unfold assigned. cbn [ld_workDuration ld_breakDuration ld_sessionCount
                              ld_todayFocusMinutes ld_currentStreak].
      split; [apply js_or_kept_or_default |].
      split; [apply js_or_kept_or_default |].
      destruct (is_date (own_property "lastDate" fields) today).
      * repeat split; apply js_or_kept_or_default.
      * repeat split; reflexivity.
  - unfold constructor, loadData.
    cbn [fresh host this dateString pomodoroData].
    destruct (loadData_values today saved) as [e | [l |]].
    + reflexivity.
    + destruct (numbers l) as [[[[[wd bd] sc] tfm] cs] |]; exact I.
    + exact I.
Qed.

(** * Further properties of the code *)

(** ** Start, pause, switch and skip *)

(** X1: on a timer that is not running, a click on the start/pause button
    starts it without touching timeRemaining, and a second click gives back
    the object as it was, with no live subscription, the same outstanding
    switches and the same stored item. *)
Theorem X1_start_then_pause (w : World)
  (Hreach : reachable w) (Hidle : isRunning (this w) = false) :
  isRunning (this (toggle w)) = true /\
  timeRemaining (this (toggle w)) = timeRemaining (this w) /\
  this (toggle (toggle w)) = this w /\
  intervals (host (toggle (toggle w))) = [] /\
  timeouts (host (toggle (toggle w))) = timeouts (host w) /\
  pomodoroData (host (toggle (toggle w))) = pomodoroData (host w).
Proof.
  apply reachable_one_subscription in Hreach.
  open_subscription w Hreach; try discriminate;
    rewrite ?Nat.eqb_refl; repeat split; reflexivity.
Qed.

Lemma X1_start_then_pause_witness :
  this (toggle (toggle (new_page "Mon Nov 02 2026")))
  = this (new_page "Mon Nov 02 2026").
Proof.
  exact (proj1 (proj2 (proj2
           (X1_start_then_pause (new_page "Mon Nov 02 2026")
              (reach_constructed NoItem None "Mon Nov 02 2026" _ eq_refl)
              eq_refl)))).
Defined.

(** X2: [pause] is idempotent on the object and on the timers, and it changes
    neither timeRemaining, nor the mode, nor the stats. *)
Theorem X2_pause_idempotent (w : World) :
  this (pause (pause w)) = this (pause w) /\
  intervals (host (pause (pause w))) = intervals (host (pause w)) /\
  timeouts (host (pause (pause w))) = timeouts (host (pause w)) /\
  isRunning (this (pause w)) = false /\
  timerInterval (this (pause w)) = None /\
  timeRemaining (this (pause w)) = timeRemaining (this w) /\
  isWorkMode (this (pause w)) = isWorkMode (this w) /\
  stats (pause w) = stats w.
Proof. crunch w; repeat split; reflexivity. Qed.

(** X3: [switchMode] sets the mode and the full duration of that mode and
    leaves a running timer running on its subscription: the countdown goes on
    from the new duration.  It keeps the stats, the outstanding switches and
    the stored item, and of two switches in a row only the second counts. *)
Theorem X3_switchMode_keeps_running (b c : bool) (w : World) :
  let w' := switchMode b w in
  isWorkMode (this w') = b /\
  timeRemaining (this w') = duration_of_mode w' /\
  totalTime (this w') = duration_of_mode w' /\
  isRunning (this w') = isRunning (this w) /\
  timerInterval (this w') = timerInterval (this w) /\
  intervals (host w') = intervals (host w) /\
  timeouts (host w') = timeouts (host w) /\
  stats w' = stats w /\
  pomodoroData (host w') = pomodoroData (host w) /\
  this (switchMode b (switchMode c w)) = this w'.
Proof. destruct b, c; crunch w; repeat split; reflexivity. Qed.

(** X4: [skip] pauses and moves to the other mode at its full duration; a
    second [skip] is back in the first mode, at the full duration of that
    mode, whatever timeRemaining was before, with the stats and the stored
    item untouched. *)
Theorem X4_skip_twice (w : World) :
  isWorkMode (this (skip w)) = negb (isWorkMode (this w)) /\
  isRunning (this (skip w)) = false /\
  timeRemaining (this (skip w)) = duration_of_mode (skip w) /\
  isWorkMode (this (skip (skip w))) = isWorkMode (this w) /\
  timeRemaining (this (skip (skip w))) = duration_of_mode w /\
  totalTime (this (skip (skip w))) = duration_of_mode w /\
  stats (skip (skip w)) = stats w /\
  pomodoroData (host (skip (skip w))) = pomodoroData (host w).
Proof. crunch w; repeat split; reflexivity. Qed.

(** ** A completed interval *)

(** X5: [complete] leaves the timer paused in the mode it was in, with one
    more deferred switch that can fire, and plays the sound exactly when sound
    is enabled.  When the switch fires the timer is in the other mode at its
    full duration, still paused and without subscription, the stats are those
    [complete] left and the number of outstanding switches is what it was
    before [complete]. *)
Theorem X5_complete_then_switch (w : World) :
  let w1 := complete w in
  let w2 := handle timeout_fires w1 in
  enabled timeout_fires w1 = true /\
  isRunning (this w1) = false /\
  isWorkMode (this w1) = isWorkMode (this w) /\
  sounds w1 = (if soundEnabled (this w) then S (sounds w) else sounds w) /\
  isWorkMode (this w2) = negb (isWorkMode (this w)) /\
  timeRemaining (this w2) = duration_of_mode w2 /\
  totalTime (this w2) = duration_of_mode w2 /\
  isRunning (this w2) = false /\
  timerInterval (this w2) = None /\
  timeouts (host w2) = timeouts (host w) /\
  stats w2 = stats w1.
Proof.
  unfold sounds, enabled.
  crunch w; cbv [is_sound negb Nat.eqb]; repeat split; reflexivity.
Qed.

(** ** Several ticks *)

Lemma run_app (es1 es2 : list Event) : forall w : World,
  run (es1 ++ es2) w = run es2 (run es1 w).
Proof.
  induction es1 as [| e es1 IH]; intros w; [reflexivity |].
  cbn [app run]. apply IH.
Qed.

Lemma feasible_app (es1 es2 : list Event) : forall w : World,
  feasible (es1 ++ es2) w = feasible es1 w && feasible es2 (run es1 w).
Proof.
  induction es1 as [| e es1 IH]; intros w; [reflexivity |].
  cbn [app run feasible]. rewrite IH. apply andb_assoc.
Qed.

(** A tick above 1 second, as a world. *)
Lemma tick_above_world (w : World) :
  1 < timeRemaining (this w) ->
  tick w
  = mkWorld (set_timeRemaining (timeRemaining (this w) - 1) (this w))
      (set_presented
         (UpdateProgressRing (timeRemaining (this w) - 1) (totalTime (this w))
          :: UpdateDisplay (timeRemaining (this w) - 1) (isWorkMode (this w))
          :: presented (host w)) (host w)).
Proof.
  intros Hr. rewrite tick_branches. cbv zeta.
  rewrite (proj2 (Z.leb_gt _ _)) by lia.
  crunch w; reflexivity.
Qed.

(** Ticks that do not end the countdown change timeRemaining and the log,
    and nothing else. *)
Lemma ticks_run (id : nat) (n : nat) : forall w : World,
  Z.of_nat n < timeRemaining (this w) ->
  run (repeat (interval_fires id) n) w
  = mkWorld (set_timeRemaining (timeRemaining (this w) - Z.of_nat n) (this w))
      (set_presented
         (shown_by_ticks n (timeRemaining (this w)) (totalTime (this w))
            (isWorkMode (this w)) (presented (host w))) (host w)).
Proof.
  induction n as [| n IH]; intros w Hr.
  - cbn [repeat run shown_by_ticks]. rewrite Z.sub_0_r.
    destruct w as [t h]; destruct t; destruct h; reflexivity.
  - cbn [repeat run handle shown_by_ticks].
    rewrite tick_above_world by lia.
    rewrite IH; cbn [this host timeRemaining totalTime isWorkMode presented
                      set_timeRemaining set_presented]; [| lia].
    destruct w as [t h]; destruct t; destruct h.
    cbn [this host timeRemaining totalTime isWorkMode presented
         set_timeRemaining set_presented workDuration breakDuration isRunning
         timerInterval sessionCount todayFocusMinutes currentStreak dailyGoal
         soundEnabled backgroundTime intervals timeouts nextId pomodoroData
         pomodoroSound dateString].
    match goal with
    | |- context [?x - 1 - Z.of_nat n] =>
        replace (x - 1 - Z.of_nat n) with (x - Z.of_nat (S n)) by lia
    end.
    reflexivity.
Qed.

Lemma filter_shown_by_ticks (f : Effect -> bool) (n : nat) :
  (forall r total, f (UpdateProgressRing r total) = false) ->
  (forall r work, f (UpdateDisplay r work) = false) ->
  forall t total work shown,
    filter f (shown_by_ticks n t total work shown) = filter f shown.
Proof.
  intros Hring Hdisplay.
  induction n as [| n IH]; intros t total work shown; [reflexivity |].
  cbn [shown_by_ticks]. rewrite IH. cbn [filter].
  rewrite Hring, Hdisplay. reflexivity.
Qed.

Lemma toggle_completions (w : World) : completions (toggle w) = completions w.
Proof. crunch w; reflexivity. Qed.

Lemma deferred_completions (w : World) :
  completions (handle timeout_fires w) = completions w.
Proof. crunch w; reflexivity. Qed.

Lemma start_when_idle (w : World) :
  one_subscription w -> isRunning (this w) = false ->
  timerInterval (this (toggle w)) = Some (nextId (host w)) /\
  intervals (host (toggle w)) = [nextId (host w)] /\
  timeRemaining (this (toggle w)) = timeRemaining (this w).
Proof.
  intros H Hidle.
  open_subscription w H; try discriminate; repeat split; reflexivity.
Qed.

(** The ticks of a countdown from [n + 1] seconds, as a world: [n] ticks
    that redraw, and [complete] at 0. *)
Lemma countdown_run (id : nat) (n : nat) (w : World) :
  timeRemaining (this w) = Z.of_nat (S n) ->
  run (repeat (interval_fires id) (S n)) w
  = complete
      (mkWorld (set_timeRemaining 0 (this w))
         (set_presented
            (shown_by_ticks n (timeRemaining (this w)) (totalTime (this w))
               (isWorkMode (this w)) (presented (host w))) (host w))).
Proof.
  intros Hr.
  change (repeat (interval_fires id) (S n))
    with (interval_fires id :: repeat (interval_fires id) n).
  rewrite repeat_cons, run_app, ticks_run by lia.
  cbn [run handle]. rewrite tick_completes;
    cbn [this host timeRemaining set_timeRemaining]; [| lia].
  replace (timeRemaining (this w) - Z.of_nat n - 1) with 0 by lia.
  destruct w as [t h]; destruct t; destruct h; reflexivity.
Qed.

(** X6: a whole interval.  On a timer that is not running and has [n + 1]
    seconds left, the click on the start/pause button, the [n + 1] ticks of
    the subscription that click makes, and the deferred switch can happen in
    this order; they run [complete] once, change the stats as [complete] does
    in the mode of the interval, and leave the timer in the other mode at its
    full duration, not running, with no live subscription and as many
    outstanding switches as before. *)
Theorem X6_full_interval (n : nat) (w : World)
  (Hreach : reachable w) (Hidle : isRunning (this w) = false)
  (Hremaining : timeRemaining (this w) = Z.of_nat (S n)) :
  let id := nextId (host w) in
  let es := click_startPauseBtn
            :: repeat (interval_fires id) (S n) ++ [timeout_fires] in
  let w' := run es w in
  feasible es w = true /\
  completions w' = S (completions w) /\
  stats w' = stats (complete w) /\
  isWorkMode (this w') = negb (isWorkMode (this w)) /\
  timeRemaining (this w') = duration_of_mode w' /\
  totalTime (this w') = duration_of_mode w' /\
  isRunning (this w') = false /\
  intervals (host w') = [] /\
  timeouts (host w') = timeouts (host w).
Proof.
  cbv zeta.
  apply reachable_one_subscription in Hreach.
  destruct (start_when_idle w Hreach Hidle) as (Hid & Hlive & Hr).
  assert (Hr' : timeRemaining (this (toggle w)) = Z.of_nat (S n))
    by (rewrite Hr; exact Hremaining).
  destruct (countdown n (toggle w) (nextId (host w)) Hid Hlive Hr')
    as (Hfeasible & _ & Hcount & _ & _).
  cbv zeta in Hfeasible, Hcount.
  assert (Hend : run (click_startPauseBtn
                      :: repeat (interval_fires (nextId (host w))) (S n)
                         ++ [timeout_fires]) w
                 = handle timeout_fires
                     (run (repeat (interval_fires (nextId (host w))) (S n))
                        (toggle w))).
  { cbn [run handle]. rewrite run_app. reflexivity. }
  rewrite Hend.
  split; [| split].
  - cbn [feasible enabled handle]. rewrite feasible_app, Hfeasible.
    rewrite (countdown_run _ n (toggle w) Hr').
    cbn [feasible andb].
    unfold enabled.
    clear. crunch w; reflexivity.
  - rewrite deferred_completions, Hcount. apply f_equal, toggle_completions.
  - rewrite (countdown_run _ n (toggle w) Hr').
    clear Hend Hfeasible Hcount Hid Hlive Hr Hr'.
    open_subscription w Hreach; try discriminate;
      rewrite ?Nat.eqb_refl; repeat split; reflexivity.
Qed.

Lemma X6_full_interval_witness :
  isWorkMode (this (run (click_startPauseBtn
                         :: repeat (interval_fires 1%nat) 1500 ++ [timeout_fires])
                      (new_page "Mon Nov 02 2026")))
  = false.
Proof.
  exact (proj1 (proj2 (proj2 (proj2
           (X6_full_interval 1499
              (new_page "Mon Nov 02 2026")
              (reach_constructed NoItem None "Mon Nov 02 2026" _ eq_refl)
              eq_refl eq_refl))))).
Defined.

(** ** Going to the background and back *)

Lemma resync_backgroundTime (elapsed : Z) (w : World) :
  backgroundTime (this (resync elapsed w)) = None.
Proof. crunch w; split_ifs; reflexivity. Qed.

(** X7: the listener for [visibilitychange] does nothing when the timer is
    not running, and nothing when the page is shown without a recorded time;
    hiding a running timer only records the time; and once the page is shown
    a second notice that it is shown changes nothing: the time spent hidden is
    taken off once. *)
Theorem X7_visibility_once (w : World) (hidden : bool) (now now' : Z) :
  (if isRunning (this w)
   then visibilitychange true now w = on_this (set_backgroundTime (Some now)) w
   else visibilitychange hidden now w = w) /\
  match backgroundTime (this w) with
  | None => visibilitychange false now w = w
  | Some _ => True
  end /\
  visibilitychange false now' (visibilitychange false now w)
  = visibilitychange false now w.
Proof.
  split; [| split].
  - unfold visibilitychange.
    destruct (isRunning (this w)); [reflexivity |].
    rewrite andb_false_r.
    destruct (backgroundTime (this w)); [rewrite andb_false_r |]; reflexivity.
  - unfold visibilitychange.
    destruct (backgroundTime (this w)); [exact I | reflexivity].
  - unfold visibilitychange at 2 3. cbn [andb negb].
    destruct (backgroundTime (this w)) as [since |] eqn:Hbg.
    + destruct (negb (since =? 0) && isRunning (this w)) eqn:Hcond.
      * unfold visibilitychange. cbn [andb negb].
        rewrite resync_backgroundTime. reflexivity.
      * unfold visibilitychange. cbn [andb negb].
        rewrite Hbg, Hcond. reflexivity.
    + unfold visibilitychange. cbn [andb negb]. rewrite Hbg. reflexivity.
Qed.

(** X8: the ticks delivered while the page is hidden and the time spent
    hidden are both taken off.  A running timer hidden at [hiddenAt], ticked
    [k] times and shown at [shownAt] has lost [k] seconds and the whole
    seconds between [hiddenAt] and [shownAt], as long as that leaves time on
    the clock; so a browser that keeps the interval going in the background
    makes the timer lose every hidden second twice. *)
Theorem X8_hidden_ticks_and_elapsed_add_up
  (w : World) (id : nat) (k : nat) (hiddenAt shownAt : Z)
  (Hrunning : isRunning (this w) = true)
  (Hat : hiddenAt <> 0)
  (Hticks : Z.of_nat k < timeRemaining (this w))
  (Hleft : Z.of_nat k + (shownAt - hiddenAt) / 1000 < timeRemaining (this w)) :
  let es := visibility_changes true hiddenAt
            :: repeat (interval_fires id) k
               ++ [visibility_changes false shownAt] in
  timeRemaining (this (run es w))
  = timeRemaining (this w) - Z.of_nat k - (shownAt - hiddenAt) / 1000 /\
  backgroundTime (this (run es w)) = None /\
  isRunning (this (run es w)) = true /\
  completions (run es w) = completions w.
Proof.
  cbv zeta. cbn [run handle]. rewrite run_app. cbn [run handle].
  assert (Hhide : visibilitychange true hiddenAt w
                  = on_this (set_backgroundTime (Some hiddenAt)) w).
  { unfold visibilitychange. rewrite Hrunning. reflexivity. }
  rewrite Hhide.
  rewrite ticks_run by (cbn [on_this this timeRemaining set_backgroundTime]; exact Hticks).
  set (elapsed := (shownAt - hiddenAt) / 1000) in *.
  match goal with
  | |- context [visibilitychange false shownAt ?x] =>
      assert (Hshow : visibilitychange false shownAt x = resync elapsed x)
  end.
  { apply visibilitychange_shown; [| | exact Hat];
      destruct w as [t h]; destruct t; destruct h; cbn in *; congruence. }
  rewrite Hshow, resync_branches. cbv zeta.
  cbn [on_this this host timeRemaining totalTime isWorkMode presented
       set_timeRemaining set_backgroundTime set_presented].
  rewrite Z.max_r by lia.
  rewrite (proj2 (Z.leb_gt _ _)) by lia.
  unfold completions.
  destruct w as [t h]; destruct t; destruct h.
  cbn in Hrunning. subst.
  cbv [updateDisplay updateProgressRing emit seq on_this on_host this host
       timeRemaining totalTime isWorkMode isRunning backgroundTime presented
       set_timeRemaining set_backgroundTime set_presented].
  cbn [filter is_completion].
  rewrite filter_shown_by_ticks by reflexivity.
  repeat split; reflexivity.
Qed.

Lemma X8_hidden_ticks_and_elapsed_add_up_witness :
  timeRemaining
    (this (run (visibility_changes true 1000
                :: repeat (interval_fires 1%nat) 10
                   ++ [visibility_changes false 11000])
             (toggle (new_page "Mon Nov 02 2026"))))
  = 1500 - 10 - 10.
Proof.
  exact (proj1 (X8_hidden_ticks_and_elapsed_add_up
                  (toggle (new_page "Mon Nov 02 2026")) 1%nat 10 1000 11000
                  eq_refl ltac:(discriminate) eq_refl eq_refl)).
Defined.

(** ** What the object keeps *)

Lemma round_div60_range (x : Z) :
  60 <= x <= 7200 -> 1 <= round_div60 x <= 120.
Proof.
  intros Hx. pose proof (round_div60_nearest x). lia.
Qed.

Lemma handle_well_kept (e : Event) (w : World) :
  well_kept w -> well_kept (handle e w).
Proof.
  unfold well_kept. intros H.
  destruct e as [| | | wtext btext | | towork | id | | hidden now | day];
    try destruct towork;
    crunch w; split_ifs; cbv beta iota;
    try pose proof (round_div60_range f_wd ltac:(lia));
    lia.
Qed.

Lemma run_well_kept (es : list Event) : forall w : World,
  well_kept w -> well_kept (run es w).
Proof.
  induction es as [| e es IH]; intros w H; [exact H |].
  cbn [run]. apply IH, handle_well_kept, H.
Qed.

Lemma new_page_well_kept (date : string) : well_kept (new_page date).
Proof. cbv [well_kept new_page fresh]. run_cmds. lia. Qed.

(** X9: from a first visit on, whatever the events: the durations stay
    within 60..7200 and 60..3600 seconds, totalTime is the duration of the
    current mode and so is positive (the progress ring never divides by 0),
    the daily goal is 8, currentStreak equals sessionCount, and
    todayFocusMinutes lies between sessionCount and 120 times sessionCount. *)
Theorem X9_kept_from_first_visit (es : list Event) (date : string) :
  let w := run es (new_page date) in
  well_kept w /\
  0 < totalTime (this w) /\
  0 <= sessionCount (this w) /\
  0 <= todayFocusMinutes (this w).
Proof.
  cbv zeta.
  pose proof (run_well_kept es _ (new_page_well_kept date)) as H.
  split; [exact H |].
  destruct H as ((Hwd & Hbd) & Ht & _ & _ & Hm).
  unfold duration_of_mode in Ht.
  destruct (isWorkMode (this (run es (new_page date)))); lia.
Qed.

(** ** Storage follows the object *)

Lemma handle_mirrors (d : string) (e : Event) (w : World) :
  mirrors d w ->
  mirrors d (handle e w) \/ mirrors (dateString (host w)) (handle e w).
Proof.
  unfold mirrors. intros H.
  destruct e as [| | | wtext btext | | towork | id | | hidden now | day];
    try destruct towork;
    crunch w; split_ifs; cbv beta iota;
    first [ left; exact H | right; reflexivity ].
Qed.

Lemma handle_dateString (e : Event) (w : World) :
  is_date_change e = false ->
  dateString (host (handle e w)) = dateString (host w).
Proof.
  intros He.
  destruct e as [| | | wtext btext | | towork | id | | hidden now | day];
    try discriminate; try destruct towork;
    crunch w; split_ifs; reflexivity.
Qed.

Lemma run_mirrors (es : list Event) : forall w : World,
  (exists d, mirrors d w) -> exists d, mirrors d (run es w).
Proof.
  induction es as [| e es IH]; intros w H; [exact H |].
  cbn [run]. apply IH. destruct H as [d H].
  destruct (handle_mirrors d e w H); eauto.
Qed.

Lemma run_mirrors_same_day (es : list Event) : forall w : World,
  forallb (fun e => negb (is_date_change e)) es = true ->
  mirrors (dateString (host w)) w ->
  mirrors (dateString (host w)) (run es w) /\
  dateString (host (run es w)) = dateString (host w).
Proof.
  induction es as [| e es IH]; intros w Hes H; [split; [exact H | reflexivity] |].
  cbn [forallb] in Hes. apply andb_prop in Hes. destruct Hes as [He Hes].
  apply negb_true_iff in He.
  cbn [run].
  pose proof (handle_dateString e w He) as Hd.
  destruct (IH (handle e w) Hes) as [Hm Hd'].
  - rewrite Hd. destruct (handle_mirrors _ e w H); assumption.
  - rewrite Hd in Hm, Hd'. split; assumption.
Qed.

Lemma new_page_mirrors (date : string) : mirrors date (new_page date).
Proof. cbv [mirrors new_page fresh]. run_cmds. repeat split; reflexivity. Qed.

(** X10: from a first visit on, whatever the events, the stored item follows
    the object: either nothing is stored and the object holds the default
    durations and zero stats, or what is stored is the object literal of
    [saveData] for the durations and stats the object holds now, stamped with
    some date. *)
Theorem X10_storage_follows_object (es : list Event) (date : string) :
  exists d, mirrors d (run es (new_page date)).
Proof.
  apply run_mirrors. exists date. apply new_page_mirrors.
Qed.

Lemma js_or_truthy (value : option jprim) (fallback : jprim) :
  truthy fallback = true -> truthy (js_or value fallback) = true.
Proof.
  intros Hf. destruct value as [v |]; cbn; [| exact Hf].
  destruct (truthy v) eqn:Hv; assumption.
Qed.

(** The object the constructor leaves when it ends with numbers. *)
Lemma constructor_idle (data : StoredItem) (sound : option string)
  (date : string) (w : World) :
  constructor data sound date = Done w ->
  workDuration (this w) <> 0 /\ breakDuration (this w) <> 0 /\
  isWorkMode (this w) = true /\ isRunning (this w) = false /\
  timerInterval (this w) = None /\
  timeRemaining (this w) = workDuration (this w) /\
  totalTime (this w) = workDuration (this w) /\
  intervals (host w) = [] /\ timeouts (host w) = 0%nat.
Proof.
  unfold constructor, loadData.
  cbv [fresh host this dateString pomodoroData].
  destruct (loadData_values date data) as [e | [l |]] eqn:Hl; try discriminate.
  - destruct (numbers l) as [[[[[wd bd] sc] tfm] cs] |] eqn:Hn; try discriminate.
    intros [= <-].
    assert (Hwd : wd <> 0 /\ bd <> 0).
    { destruct data as [| | | j]; try discriminate. cbn in Hl.
      destruct (properties j) as [err | fields]; try discriminate.
      injection Hl as <-.
      pose proof (js_or_truthy (own_property "workDuration" fields)
                    (JNum (25 * 60)) eq_refl) as H1.
      pose proof (js_or_truthy (own_property "breakDuration" fields)
                    (JNum (5 * 60)) eq_refl) as H2.
      unfold assigned, numbers in Hn.
      destruct (js_or (own_property "workDuration" fields) (JNum (25 * 60)));
        try discriminate.
      destruct (js_or (own_property "breakDuration" fields) (JNum (5 * 60)));
        try discriminate.
      repeat match type of Hn with
             | context [if ?b then _ else _] => destruct b
             end;
        repeat match type of Hn with
               | context [match ?x with JNum _ => _ | _ => _ end] => destruct x
               end;
        try discriminate;
        injection Hn as <- <- _ _ _;
        cbn in H1, H2;
        apply negb_true_iff, Z.eqb_neq in H1;
        apply negb_true_iff, Z.eqb_neq in H2;
        split; assumption. }
    destruct Hwd as [Hwd Hbd]. run_cmds.
    destruct sound as [pref |]; [destruct (String.eqb pref "false") |];
      repeat split; assumption || reflexivity.
  - intros [= <-]. run_cmds.
    destruct sound as [pref |]; [destruct (String.eqb pref "false") |];
      repeat split; discriminate || reflexivity.
Qed.

(** X11: a visit on the day of the last save sees what the last visit left.
    After any events of a first visit without a change of date, a new
    constructor on what is stored ends with the stats and the durations the
    object held, in Work mode, not running, at the full work duration. *)
Theorem X11_reload_same_day (es : list Event) (date : string)
  (sound : option string)
  (Hday : forallb (fun e => negb (is_date_change e)) es = true) :
  let w := run es (new_page date) in
  match constructor (pomodoroData (host w)) sound date with
  | Done w' =>
      stats w' = stats w /\
      workDuration (this w') = workDuration (this w) /\
      breakDuration (this w') = breakDuration (this w) /\
      isWorkMode (this w') = true /\ isRunning (this w') = false /\
      timeRemaining (this w') = workDuration (this w)
  | _ => False
  end.
Proof.
  cbv zeta.
  destruct (run_mirrors_same_day es (new_page date) Hday (new_page_mirrors date))
    as [Hm _].
  change (dateString (host (new_page date))) with date in Hm.
  pose proof (run_well_kept es _ (new_page_well_kept date)) as ((Hwd & Hbd) & _).
  set (w := run es (new_page date)) in *.
  unfold mirrors in Hm.
  destruct (pomodoroData (host w)) as [| | | j] eqn:Hstored; try contradiction.
  - destruct Hm as (Hs & Hw & Hb).
    pose proof (constructor_idle NoItem sound date) as Hidle.
    assert (Hnew : match constructor NoItem sound date with
                   | Done w' =>
                       stats w' = (0, 0, 0) /\ workDuration (this w') = 1500 /\
                       breakDuration (this w') = 300
                   | _ => False
                   end).
    { cbv [constructor loadData loadData_values fresh]. run_cmds.
      destruct sound as [pref |]; [destruct (String.eqb pref "false") |];
        repeat split; reflexivity. }
    destruct (constructor NoItem sound date) as [| | w']; try contradiction.
    destruct (Hidle w' eq_refl) as (_ & _ & Hmode & Hrun & _ & Hr & _).
    destruct Hnew as (Hs' & Hw' & Hb').
    rewrite Hs, Hw, Hb, Hs', Hw', Hb', Hr, Hw'. repeat split; assumption.
  - subst j.
    pose proof (constructor_idle
                  (Json (saved_object (workDuration (this w))
                           (breakDuration (this w)) (sessionCount (this w))
                           (todayFocusMinutes (this w)) (currentStreak (this w))
                           date)) sound date) as Hidle.
    pose proof (constructor_reads_numbers
                  [ ("workDuration", JNum (workDuration (this w)));
                    ("breakDuration", JNum (breakDuration (this w)));
                    ("sessionCount", JNum (sessionCount (this w)));
                    ("todayFocusMinutes", JNum (todayFocusMinutes (this w)));
                    ("currentStreak", JNum (currentStreak (this w)));
                    ("lastDate", JStr date) ]
                  _ _ _ _ _ date date sound
                  eq_refl eq_refl eq_refl eq_refl eq_refl eq_refl
                  ltac:(lia) ltac:(lia)) as Hread.
    rewrite String.eqb_refl in Hread.
    unfold saved_object in *.
    destruct (constructor _ sound date) as [| | w']; try contradiction.
    destruct (Hidle w' eq_refl) as (_ & _ & Hmode & Hrun & _ & Hr & _).
    destruct Hread as (Hw' & Hb' & Hs').
    rewrite Hs', Hw', Hb', Hr, Hw'. repeat split; assumption.
Qed.

Lemma X11_reload_same_day_witness :
  match constructor
          (pomodoroData
             (host (run [click_applySettings "50" "10"; click_startPauseBtn]
                      (new_page "Mon Nov 02 2026"))))
          None "Mon Nov 02 2026" with
  | Done w' => workDuration (this w') = 3000 /\ breakDuration (this w') = 600
  | _ => False
  end.
Proof.
  pose proof (X11_reload_same_day
                [click_applySettings "50" "10"; click_startPauseBtn]
                "Mon Nov 02 2026" None eq_refl) as H.
  cbv zeta in H.
  destruct (constructor _ None "Mon Nov 02 2026") as [| | w']; try exact H.
  exact (conj (proj1 (proj2 H)) (proj1 (proj2 (proj2 H)))).
Defined.

(** X12: whatever is stored, a constructor that ends with numbers leaves
    durations other than 0 (a stored 0 takes the default), Work mode, a timer
    that is not running, timeRemaining and totalTime at the work duration, and
    no timer registered. *)
Theorem X12_constructed_idle (data : StoredItem) (sound : option string)
  (date : string) :
  match constructor data sound date with
  | Done w =>
      workDuration (this w) <> 0 /\ breakDuration (this w) <> 0 /\
      isWorkMode (this w) = true /\ isRunning (this w) = false /\
      timerInterval (this w) = None /\
      timeRemaining (this w) = workDuration (this w) /\
      totalTime (this w) = workDuration (this w) /\
      intervals (host w) = [] /\ timeouts (host w) = 0%nat
  | _ => True
  end.
Proof.
  destruct (constructor data sound date) as [| | w] eqn:Hc; try exact I.
  exact (constructor_idle data sound date w Hc).
Qed.

(** ** The sound preference *)

(** X13: [toggleSound] flips soundEnabled and stores it, twice gives it
    back, and it touches neither the countdown nor the stats.  A constructor
    that ends with numbers has sound off exactly when the stored preference
    is the text false; so it reads back what [toggleSound] stored. *)
Theorem X13_sound_preference (w : World) (data : StoredItem)
  (sound : option string) (date : string) :
  soundEnabled (this (toggleSound w)) = negb (soundEnabled (this w)) /\
  soundEnabled (this (toggleSound (toggleSound w))) = soundEnabled (this w) /\
  timeRemaining (this (toggleSound w)) = timeRemaining (this w) /\
  isRunning (this (toggleSound w)) = isRunning (this w) /\
  stats (toggleSound w) = stats w /\
  match constructor data sound date with
  | Done w' =>
      soundEnabled (this w')
      = match sound with
        | Some pref => negb (String.eqb pref "false")
        | None => true
        end
  | _ => True
  end /\
  match constructor data (pomodoroSound (host (toggleSound w))) date with
  | Done w' => soundEnabled (this w') = soundEnabled (this (toggleSound w))
  | _ => True
  end.
Proof.
  assert (Hload : forall s,
    match constructor data s date with
    | Done w' =>
        soundEnabled (this w')
        = match s with
          | Some pref => negb (String.eqb pref "false")
          | None => true
          end
    | _ => True
    end).
  { intros s. unfold constructor, loadData.
    cbv [fresh host this dateString pomodoroData].
    destruct (loadData_values date data) as [e | [l |]]; try exact I.
    - destruct (numbers l) as [[[[[wd bd] sc] tfm] cs] |]; try exact I.
      run_cmds.
      destruct s as [pref |]; [destruct (String.eqb pref "false") |];
        reflexivity.
    - run_cmds.
      destruct s as [pref |]; [destruct (String.eqb pref "false") |];
        reflexivity. }
  repeat split; try (crunch w; reflexivity).
  - apply Hload.
  - pose proof (Hload (pomodoroSound (host (toggleSound w)))) as H.
    destruct (constructor data _ date) as [| | w']; try exact I.
    rewrite H. clear. crunch w; reflexivity.
Qed.

(** ** Settings, applied again *)

Lemma parseInt_String_of_number (n : Z) :
  0 <= n < 1000 -> parseInt (String_of_number n) = Some n.
Proof.
  intros Hn.
  assert (Hall : forallb shows_itself (List.seq 0%nat 1000%nat) = true)
    by (vm_compute; reflexivity).
  rewrite forallb_forall in Hall.
  specialize (Hall (Z.to_nat n)).
  unfold shows_itself in Hall. rewrite Z2Nat.id in Hall by lia.
  destruct (parseInt (String_of_number n)) as [m |].
  - f_equal. apply Z.eqb_eq. apply Hall. apply in_seq. lia.
  - discriminate Hall. apply in_seq. lia.
Qed.

Lemma applySettings_durations (work brk : string) (w : World) :
  workDuration (this (applySettings work brk w))
  = Z.max 1 (Z.min 120 (parseInt_or work 25)) * 60 /\
  breakDuration (this (applySettings work brk w))
  = Z.max 1 (Z.min 60 (parseInt_or brk 5)) * 60.
Proof. crunch w; split; reflexivity. Qed.

Lemma parseInt_or_shown (m fallback : Z) :
  1 <= m <= 120 ->
  parseInt_or (String_of_number (round_div60 (m * 60))) fallback = m.
Proof.
  intros Hm. rewrite round_div60_minutes. unfold parseInt_or.
  rewrite parseInt_String_of_number by lia.
  destruct (m =? 0) eqn:H0; [apply Z.eqb_eq in H0; lia | reflexivity].
Qed.

(** Settings applied on top of settings, the second time with texts that
    read as the minutes the first time established. *)
Lemma applySettings_clamped (work brk again1 again2 : string) (w : World) :
  parseInt_or again1 25 = Z.max 1 (Z.min 120 (parseInt_or work 25)) ->
  parseInt_or again2 5 = Z.max 1 (Z.min 60 (parseInt_or brk 5)) ->
  let w1 := applySettings work brk w in
  let w2 := applySettings again1 again2 w1 in
  this w2 = this w1 /\
  pomodoroData (host w2) = pomodoroData (host w1) /\
  intervals (host w2) = intervals (host w1) /\
  timeouts (host w2) = timeouts (host w1).
Proof.
  intros H1 H2. cbv zeta. unfold applySettings. rewrite H1, H2.
  generalize (parseInt_or work 25) (parseInt_or brk 5). intros pw pb.
  assert (E1 : Z.max 1 (Z.min 120 (Z.max 1 (Z.min 120 pw)))
               = Z.max 1 (Z.min 120 pw)) by lia.
  assert (E2 : Z.max 1 (Z.min 60 (Z.max 1 (Z.min 60 pb)))
               = Z.max 1 (Z.min 60 pb)) by lia.
  clear H1 H2.
  crunch w; rewrite E1, E2; repeat split; reflexivity.
Qed.

(** X14: [applySettings] writes the clamped minutes back into the two
    inputs, and the texts it writes read back as those minutes: applying the
    settings again with the inputs as they stand changes neither the object
    nor the stored item nor the timers. *)
Theorem X14_applySettings_again (work brk : string) (w : World) :
  let w1 := applySettings work brk w in
  let shownWork := String_of_number (round_div60 (workDuration (this w1))) in
  let shownBreak := String_of_number (round_div60 (breakDuration (this w1))) in
  let w2 := applySettings shownWork shownBreak w1 in
  In (InputsShown (round_div60 (workDuration (this w1)))
        (round_div60 (breakDuration (this w1)))) (presented (host w1)) /\
  parseInt shownWork = Some (workDuration (this w1) / 60) /\
  parseInt shownBreak = Some (breakDuration (this w1) / 60) /\
  this w2 = this w1 /\
  pomodoroData (host w2) = pomodoroData (host w1) /\
  intervals (host w2) = intervals (host w1) /\
  timeouts (host w2) = timeouts (host w1).
Proof.
  cbv zeta.
  destruct (applySettings_durations work brk w) as [Hwd Hbd].
  set (m := Z.max 1 (Z.min 120 (parseInt_or work 25))) in *.
  set (b := Z.max 1 (Z.min 60 (parseInt_or brk 5))) in *.
  assert (Hm : 1 <= m <= 120) by (subst m; lia).
  assert (Hb : 1 <= b <= 60) by (subst b; lia).
  split; [| split; [| split] ].
  - clear. crunch w; cbn [In]; auto 10.
  - rewrite Hwd, round_div60_minutes, Z.div_mul by lia.
    apply parseInt_String_of_number. lia.
  - rewrite Hbd, round_div60_minutes, Z.div_mul by lia.
    apply parseInt_String_of_number. lia.
  - apply applySettings_clamped.
    + rewrite Hwd. apply parseInt_or_shown, Hm.
    + rewrite Hbd. apply parseInt_or_shown. lia.
Qed.

(** ** The clock and the badge *)

Lemma padded_text (n : Z) :
  0 <= n < 1000 ->
  parseInt (padStart 2 "0" (String_of_number n)) = Some n /\
  String.length (padStart 2 "0" (String_of_number n))
  = (if n <? 100 then 2%nat else 3%nat).
Proof.
  intros Hn.
  assert (Hall : forallb pads_well (List.seq 0%nat 1000%nat) = true)
    by (vm_compute; reflexivity).
  rewrite forallb_forall in Hall.
  specialize (Hall (Z.to_nat n) ltac:(apply in_seq; lia)).
  unfold pads_well in Hall. cbv zeta in Hall.
  rewrite Z2Nat.id in Hall by lia.
  destruct (parseInt (padStart 2 "0" (String_of_number n))) as [m |];
    [| discriminate].
  apply andb_prop in Hall. destruct Hall as [Hm Hlen].
  apply Z.eqb_eq in Hm. apply Nat.eqb_eq in Hlen.
  split; [congruence |].
  rewrite Hlen.
  destruct (Nat.ltb_spec (Z.to_nat n) 100), (Z.ltb_spec n 100);
    reflexivity || lia.
Qed.

Lemma padded_negative_text (n : Z) :
  -60 < n < 0 ->
  parseInt (padStart 2 "0" (String_of_number n)) = Some n /\
  String.length (padStart 2 "0" (String_of_number n))
  = (if -10 <? n then 2%nat else 3%nat).
Proof.
  intros Hn.
  assert (Hall : forallb pads_well_negative (List.seq 1%nat 59%nat) = true)
    by (vm_compute; reflexivity).
  rewrite forallb_forall in Hall.
  specialize (Hall (Z.to_nat (- n)) ltac:(apply in_seq; lia)).
  unfold pads_well_negative in Hall. cbv zeta in Hall.
  rewrite Z2Nat.id in Hall by lia. rewrite Z.opp_involutive in Hall.
  destruct (parseInt (padStart 2 "0" (String_of_number n))) as [m |];
    [| discriminate].
  apply andb_prop in Hall. destruct Hall as [Hm Hlen].
  apply Z.eqb_eq in Hm. apply Nat.eqb_eq in Hlen.
  split; [congruence |].
  rewrite Hlen.
  destruct (Nat.ltb_spec (Z.to_nat (- n)) 10), (Z.ltb_spec (-10) n);
    reflexivity || lia.
Qed.

(** X15: for a timeRemaining from 0 up to 59999 seconds the two texts of the
    clock read back as minutes and seconds that make up timeRemaining, the
    seconds below 60; the seconds take two characters, and the minutes two
    below 100 minutes and three from there on (so two hours show as 120:00,
    nothing being cut). *)
Theorem X15_clock_texts (t : Z) (Ht : 0 <= t < 60000) :
  parseInt (minutes_text t) = Some (t / 60) /\
  parseInt (seconds_text t) = Some (Z.rem t 60) /\
  60 * (t / 60) + Z.rem t 60 = t /\
  0 <= Z.rem t 60 < 60 /\
  String.length (seconds_text t) = 2%nat /\
  String.length (minutes_text t) = (if t <? 6000 then 2%nat else 3%nat).
Proof.
  assert (Hrem : Z.rem t 60 = t mod 60) by (apply Z.rem_mod_nonneg; lia).
  pose proof (Z.div_mod t 60 ltac:(lia)) as Hdm.
  pose proof (Z.mod_pos_bound t 60 ltac:(lia)) as Hmod.
  assert (Hmin : 0 <= t / 60 < 1000).
  { split; [apply Z.div_pos; lia | apply Z.div_lt_upper_bound; lia]. }
  destruct (padded_text (t / 60) Hmin) as [Hpm Hlm].
  destruct (padded_text (Z.rem t 60) ltac:(lia)) as [Hps Hls].
  unfold minutes_text, seconds_text.
  rewrite Hpm, Hps, Hlm, Hls.
  repeat split; try lia.
  - destruct (Z.ltb_spec (Z.rem t 60) 100); [reflexivity | lia].
  - destruct (Z.ltb_spec (t / 60) 100), (Z.ltb_spec t 6000);
      try reflexivity.
    + assert (t / 60 >= 100) by (apply Z.le_ge, Z.div_le_lower_bound; lia). lia.
    + assert (t / 60 < 100) by (apply Z.div_lt_upper_bound; lia). lia.
Qed.

Lemma X15_clock_texts_witness :
  parseInt (minutes_text 1500) = Some 25 /\
  parseInt (seconds_text 1500) = Some 0.
Proof.
  pose proof (X15_clock_texts 1500 ltac:(lia)) as H.
  exact (conj (proj1 H) (proj1 (proj2 H))).
Defined.

(** X16: below 0 the clock goes wrong.  For a timeRemaining between -59 and
    -1 (the -1 a tick at 0 leaves, or a negative stored duration) the minutes
    show as -1 and the seconds as timeRemaining itself with its sign, in two
    characters down to -9 and three below: -5 seconds show as -1:-5. *)
Theorem X16_clock_below_zero (t : Z) (Ht : -60 < t < 0) :
  minutes_text t = "-1" /\
  parseInt (minutes_text t) = Some (-1) /\
  parseInt (seconds_text t) = Some t /\
  String.length (seconds_text t) = (if -10 <? t then 2%nat else 3%nat).
Proof.
  assert (Hdiv : t / 60 = -1).
  { symmetry. apply (Z.div_unique t 60 (-1) (t + 60)); lia. }
  assert (Hrem : Z.rem t 60 = t) by (apply Z.rem_small_iff; lia).
  destruct (padded_negative_text t Ht) as [Hp Hl].
  unfold minutes_text, seconds_text. rewrite Hdiv, Hrem, Hp, Hl.
  repeat split; reflexivity.
Qed.

Lemma X16_clock_below_zero_witness :
  minutes_text (-1) = "-1" /\ parseInt (seconds_text (-1)) = Some (-1).
Proof.
  pose proof (X16_clock_below_zero (-1) ltac:(lia)) as H.
  exact (conj (proj1 H) (proj1 (proj2 (proj2 H)))).
Defined.

(** X17: what the badge can say.  While the timer runs it names the mode.
    Otherwise it says that the goal is achieved exactly from [goal] sessions
    on, counts the sessions left only between 1 and [goal - 1] of them, in the
    singular exactly for one, and invites to start only when no session is
    counted. *)
Theorem X17_badge_cases (running work : bool) (sessions goal : Z) :
  match badge_text running work sessions goal with
  | DeepFocusActive => running = true /\ work = true
  | Recharging => running = true /\ work = false
  | GoalAchieved => running = false /\ goal <= sessions
  | SessionsToGoal remaining plural =>
      running = false /\ remaining = goal - sessions /\
      1 <= remaining < goal /\ 0 < sessions < goal /\
      plural = negb (remaining =? 1)
  | ReadyToBoost => running = false /\ sessions <= 0 /\ sessions < goal
  end.
Proof.
  unfold badge_text.
  destruct running, work; try (split; reflexivity);
    destruct (Z.leb_spec goal sessions);
    try (split; [reflexivity | lia]);
    destruct (Z.ltb_spec 0 sessions);
    try (repeat split; lia);
    (repeat split; try lia;
     destruct (Z.ltb_spec 1 (goal - sessions)),
              (Z.eqb_spec (goal - sessions) 1); reflexivity || lia).
Qed.

(** ** The theme *)

(** X18: [toggleTheme] flips the theme and stores its name; a second toggle
    shows the first theme again.  Once a theme has been chosen this way,
    [loadTheme] shows it whatever the system prefers, and a change of the
    system theme is ignored. *)
Theorem X18_theme_toggle (p : ThemeManager.Page) (prefersDark matchesLight : bool) :
  let p' := ThemeManager.toggleTheme p in
  ThemeManager.lightMode p' = negb (ThemeManager.lightMode p) /\
  ThemeManager.pomodoroTheme p'
  = Some (if ThemeManager.lightMode p then "dark" else "light") /\
  ThemeManager.lightMode (ThemeManager.toggleTheme p') = ThemeManager.lightMode p /\
  ThemeManager.loadTheme prefersDark p' = p' /\
  ThemeManager.system_change matchesLight p' = p'.
Proof.
  destruct p as [light stored]. destruct light; repeat split; reflexivity.
Qed.

Lemma theme_handle_shows_stored (e : ThemeManager.Event) (p : ThemeManager.Page) :
  theme_shows_stored p -> theme_shows_stored (ThemeManager.handle e p).
Proof.
  destruct p as [light stored]. unfold theme_shows_stored.
  destruct e as [| matchesLight]; cbn.
  - intros _. destruct light; reflexivity.
  - destruct stored as [saved |]; cbn; [| trivial].
    destruct (String.eqb saved "") eqn:Hs; cbn; rewrite ?Hs; trivial.
Qed.

(** X19: the theme manager shows what is stored.  Its constructor shows the
    light theme exactly when the stored text is light, the dark one for any
    other non-empty text, and follows the system when nothing or the empty
    text is stored; and after any clicks on the theme button and changes of
    the system theme the page shows the stored theme, when one is stored. *)
Theorem X19_theme_shows_stored (prefersDark : bool) (p0 : ThemeManager.Page)
  (es : list ThemeManager.Event) :
  ThemeManager.lightMode (ThemeManager.constructor prefersDark p0)
  = match ThemeManager.pomodoroTheme p0 with
    | Some saved =>
        if String.eqb saved "" then negb prefersDark
        else String.eqb saved "light"
    | None => negb prefersDark
    end /\
  ThemeManager.pomodoroTheme (ThemeManager.constructor prefersDark p0)
  = ThemeManager.pomodoroTheme p0 /\
  theme_shows_stored (ThemeManager.run es (ThemeManager.constructor prefersDark p0)).
Proof.
  assert (Hinit : theme_shows_stored (ThemeManager.constructor prefersDark p0)).
  { destruct p0 as [light [saved |]]; unfold theme_shows_stored; cbn; [| trivial].
    destruct (String.eqb saved "") eqn:Hs; cbn; rewrite ?Hs; trivial. }
  split; [| split].
  - destruct p0 as [light [saved |]]; cbn.
    + destruct (String.eqb saved ""); cbn; [destruct prefersDark |]; reflexivity.
    + destruct prefersDark; reflexivity.
  - destruct p0 as [light [saved |]]; cbn;
      [destruct (String.eqb saved "") |]; reflexivity.
  - revert Hinit. generalize (ThemeManager.constructor prefersDark p0).
    induction es as [| e es IH]; intros p H; [exact H |].
    cbn [ThemeManager.run]. apply IH, theme_handle_shows_stored, H.
Qed.

(** ** The double-tap guard *)

(** X20: the guard compares every tap with the tap just before it, prevented
    or not: a tap is prevented exactly when it comes less than 300 ms after
    its predecessor (the first after [lastTap]), so of taps that follow each
    other within 300 ms all but the first are prevented, however long the
    series lasts. *)
Theorem X20_double_tap (times : list Z) (lastTap : Z) :
  touches times lastTap
  = map (fun pair => snd pair - fst pair <? 300)
      (combine (lastTap :: times) times).
Proof.
  revert lastTap.
  induction times as [| now later IH]; intros lastTap; [reflexivity |].
  cbn [touches touchend combine map fst snd]. rewrite IH. reflexivity.
Qed.

(** ** Ticks before the end *)

(** X21: ticks that leave time on the clock take one second each and do
    nothing else: after [n] ticks from more than [n] seconds the object is the
    same but for timeRemaining, which is [n] less and still positive, the
    timers and the stored item are untouched, [complete] has not run, and the
    log has grown by the redraws of the display and the progress ring. *)
Theorem X21_ticks_take_seconds (w : World) (id : nat) (n : nat)
  (Hleft : Z.of_nat n < timeRemaining (this w)) :
  let w' := run (repeat (interval_fires id) n) w in
  this w' = set_timeRemaining (timeRemaining (this w) - Z.of_nat n) (this w) /\
  0 < timeRemaining (this w') /\
  host w'
  = set_presented
      (shown_by_ticks n (timeRemaining (this w)) (totalTime (this w))
         (isWorkMode (this w)) (presented (host w))) (host w) /\
  completions w' = completions w /\
  stats w' = stats w.
Proof.
  cbv zeta. rewrite (ticks_run id n w Hleft).
  unfold completions, stats.
  cbn [this host].
  split; [reflexivity | split; [| split; [reflexivity | split] ] ].
  - destruct w as [t h]; destruct t; cbn in *. lia.
  - destruct w as [t h]; destruct h; cbn.
    rewrite filter_shown_by_ticks by reflexivity. reflexivity.
  - destruct w as [t h]; destruct t; reflexivity.
Qed.

Lemma X21_ticks_take_seconds_witness :
  timeRemaining
    (this (run (repeat (interval_fires 1%nat) 90)
             (toggle (new_page "Mon Nov 02 2026"))))
  = 1410.
Proof.
  pose proof (X21_ticks_take_seconds (toggle (new_page "Mon Nov 02 2026"))
                1%nat 90 eq_refl) as H.
  cbv zeta in H.
  exact (f_equal timeRemaining (proj1 H)).
Defined.
